(** * A model of the AI-Code-System reasoner and project manager

    Shallow embedding of [src/reasoner.py] (the [Reasoner] class: path
    extraction, path selection, report extraction, recommendation
    de-duplication and the [analyze] dialogue step) and of the parts of
    [src/project_manager.py] the properties below need (the fallback
    chains of [_run_semgrep_with_fallback] / [_run_osv_audit_with_fallback]
    and [generate_requirements_fix]).

    Python [str] values are modelled as Rocq [string]s, i.e. as Python
    strings whose code points are all below 256 (Latin-1).  The
    whitespace, [lower], [strip], [split] and [replace] functions below
    follow CPython's definitions on that range. *)

From Stdlib Require Import Ascii String ZArith.
From stdpp Require Import base list gmap strings pretty.

Open Scope string_scope.

(* ------------------------------------------------------------------ *)
(** ** Python string primitives *)

Module Py.

Definition chr (n : nat) : ascii := ascii_of_nat n.
Definition str1 (c : ascii) : string := String c EmptyString.

(** [str.isspace] / regex [\s] / [str.split()] separators on code points
    below 256: [\t \n \v \f \r], the separators [\x1c]-[\x1f], space,
    NEL ([\x85]) and NBSP ([\xa0]). *)
Definition is_space (c : ascii) : bool :=
  let n := nat_of_ascii c in
  (Nat.leb 9 n && Nat.leb n 13) || (Nat.leb 28 n && Nat.leb n 32) ||
  Nat.eqb n 133 || Nat.eqb n 160.

(** [str.lower] on a single Latin-1 code point. *)
Definition lower_char (c : ascii) : ascii :=
  let n := nat_of_ascii c in
  if (Nat.leb 65 n && Nat.leb n 90) ||
     (Nat.leb 192 n && Nat.leb n 222 && negb (Nat.eqb n 215))
  then chr (n + 32)%nat else c.

Fixpoint lower (s : string) : string :=
  match s with
  | EmptyString => EmptyString
  | String c s' => String (lower_char c) (lower s')
  end.

Fixpoint lstrip (s : string) : string :=
  match s with
  | EmptyString => EmptyString
  | String c s' => if is_space c then lstrip s' else s
  end.

Fixpoint rev_str (s acc : string) : string :=
  match s with
  | EmptyString => acc
  | String c s' => rev_str s' (String c acc)
  end.

Definition rstrip (s : string) : string :=
  rev_str (lstrip (rev_str s EmptyString)) EmptyString.

(** [str.strip()] *)
Definition strip (s : string) : string := rstrip (lstrip s).

(** [s.startswith(p)] *)
Fixpoint startswith (s p : string) {struct p} : bool :=
  match p, s with
  | EmptyString, _ => true
  | String a p', String b s' => Ascii.eqb a b && startswith s' p'
  | String _ _, EmptyString => false
  end.

(** [p in s] for strings *)
Fixpoint contains (s p : string) : bool :=
  startswith s p ||
  match s with
  | EmptyString => false
  | String _ s' => contains s' p
  end.

(** [s.split(sep)] with a one-character separator: empty fields kept. *)
Fixpoint split_on (sep : ascii) (s : string) : list string :=
  match s with
  | EmptyString => [EmptyString]
  | String c s' =>
      if Ascii.eqb c sep then EmptyString :: split_on sep s'
      else match split_on sep s' with
           | [] => [str1 c]
           | f :: fs => String c f :: fs
           end
  end.

(** [str.split()] with no argument: runs of whitespace separate, no empty
    fields. [cur] is the field being read. *)
Fixpoint split_ws_aux (s cur : string) : list string :=
  match s with
  | EmptyString => if String.eqb cur "" then [] else [cur]
  | String c s' =>
      if is_space c then
        (if String.eqb cur "" then [] else [cur]) ++ split_ws_aux s' ""
      else split_ws_aux s' (cur +:+ str1 c)
  end.

Definition split_ws (s : string) : list string := split_ws_aux s "".

(** [sep.join(xs)] *)
Fixpoint join (sep : string) (xs : list string) : string :=
  match xs with
  | [] => ""
  | [x] => x
  | x :: xs' => x +:+ sep +:+ join sep xs'
  end.

(** [s.replace(old, new)] for a non-empty [old]: left to right,
    non-overlapping. Structural on [s] through a fuel equal to its length. *)
Fixpoint replace_fuel (fuel : nat) (old new s : string) : string :=
  match fuel with
  | O => s
  | S f =>
      match s with
      | EmptyString => EmptyString
      | String c s' =>
          if startswith s old
          then new +:+ replace_fuel f old new (substring (String.length old) (String.length s) s)
          else String c (replace_fuel f old new s')
      end
  end.

Definition replace (old new s : string) : string :=
  replace_fuel (String.length s) old new s.

Definition nl : string := str1 (chr 10).

End Py.

(* ------------------------------------------------------------------ *)
(** ** The filesystem seen by [os.path] (POSIX) *)

Module FS.
Import Py.

(** A filesystem: the set of existing directories, given on absolute
    normalised paths, and the current working directory. *)
Record fs := mkFS { dir_exists : string -> bool; cwd : string }.

(** [posixpath.isabs] *)
Definition isabs (p : string) : bool := startswith p "/".

(** [posixpath.join(a, b)] *)
Definition path_join (a b : string) : string :=
  if startswith b "/" then b
  else if String.eqb a "" || String.eqb (substring (pred (String.length a)) 1 a) "/"
  then a +:+ b
  else a +:+ "/" +:+ b.

Fixpoint slashes (n : nat) : string :=
  match n with O => "" | S k => "/" +:+ slashes k end.

(** One step of the component loop of [posixpath.normpath]; [acc] is
    [new_comps] reversed. *)
Definition norm_step (initial_slashes : nat) (acc : list string) (comp : string)
  : list string :=
  if String.eqb comp "" || String.eqb comp "." then acc
  else if negb (String.eqb comp "..")
          || (Nat.eqb initial_slashes 0 && match acc with [] => true | _ => false end)
          || match acc with c :: _ => String.eqb c ".." | [] => false end
  then comp :: acc
  else match acc with [] => [] | _ :: t => t end.

(** [posixpath.normpath] *)
Definition normpath (p : string) : string :=
  if String.eqb p "" then "." else
  let initial_slashes :=
    if startswith p "/" then
      (if startswith p "//" && negb (startswith p "///") then 2 else 1)
    else 0 in
  let comps := fold_left (norm_step initial_slashes) (split_on (chr 47) p) [] in
  let r := slashes initial_slashes +:+ join "/" (rev comps) in
  if String.eqb r "" then "." else r.

(** [posixpath.abspath]: [os.getcwd()] joined in front of a relative path. *)
Definition abspath (F : fs) (p : string) : string :=
  normpath (if isabs p then p else path_join (cwd F) p).

(** [os.path.exists(p) and os.path.isdir(p)]: the empty path and a path
    with an embedded NUL are never directories. *)
Definition isdir (F : fs) (p : string) : bool :=
  negb (String.eqb p "") && negb (contains p (str1 (chr 0))) &&
  dir_exists F (abspath F p).

End FS.

(* ------------------------------------------------------------------ *)
(** ** [Reasoner.extract_path] *)

Module Reasoner.
Import Py FS.

(** The attributes of a [Reasoner] object that the dialogue reads or
    writes ([client], [coder] and [security_tools] are fixed at
    construction and omitted). [project_manager] records the base path of
    the [ProjectManager] built for the last analysed directory. *)
Record state := mkState {
  project_manager : option string;
  current_context : string;
  current_project_path : option string;
  ambiguous_paths : list string;
  waiting_for_path_selection : bool;
  original_request : string
}.

(** [Reasoner.__init__] *)
Definition init : state := mkState None "" None [] false "".

Definition set_ambiguous (st : state) (l : list string) : state :=
  mkState (project_manager st) (current_context st) (current_project_path st)
          l (waiting_for_path_selection st) (original_request st).
Definition set_waiting (st : state) (b : bool) : state :=
  mkState (project_manager st) (current_context st) (current_project_path st)
          (ambiguous_paths st) b (original_request st).
Definition set_original (st : state) (r : string) : state :=
  mkState (project_manager st) (current_context st) (current_project_path st)
          (ambiguous_paths st) (waiting_for_path_selection st) r.
Definition set_project (st : state) (p : string) (ctx : string) : state :=
  mkState (Some p) ctx (Some p)
          (ambiguous_paths st) (waiting_for_path_selection st) (original_request st).
Definition set_current_path (st : state) (p : string) : state :=
  mkState (project_manager st) (current_context st) (Some p)
          (ambiguous_paths st) (waiting_for_path_selection st) (original_request st).

Definition backslash : ascii := chr 92.

Fixpoint take_while (f : ascii -> bool) (s : string) : string :=
  match s with
  | EmptyString => EmptyString
  | String c s' => if f c then String c (take_while f s') else EmptyString
  end.

(** [[^\s]] and the class [[^\\s]] of the raw-string patterns, which
    excludes a backslash and the letter [s]. *)
Definition not_space (c : ascii) : bool := negb (is_space c).
Definition not_bs_s (c : ascii) : bool :=
  negb (Ascii.eqb c backslash || Ascii.eqb c "s"%char).

(** [r'\/[^\s]*\/[^\s]*'] matched at the start of [s]: the greedy first
    run backtracks to the last slash of the non-space run. *)
Definition match_unix (s : string) : option string :=
  match s with
  | String c rest =>
      if Ascii.eqb c "/"%char then
        let run := take_while not_space rest in
        if contains run "/" then Some ("/" +:+ run) else None
      else None
  | EmptyString => None
  end.

Definition is_letter (c : ascii) : bool :=
  let n := nat_of_ascii c in
  (Nat.leb 65 n && Nat.leb n 90) || (Nat.leb 97 n && Nat.leb n 122).

(** [r'[A-Za-z]:\\[^\\s]*'] matched at the start of [s]. *)
Definition match_windows (s : string) : option string :=
  match s with
  | String l (String d (String b rest)) =>
      if is_letter l && Ascii.eqb d ":"%char && Ascii.eqb b backslash
      then Some (String l (String d (String b (take_while not_bs_s rest))))
      else None
  | _ => None
  end.

(** [r'<kw>[\\s][^\\s]*'] matched at the start of [s]. *)
Definition match_keyword (kw s : string) : option string :=
  if startswith s kw then
    match substring (String.length kw) (String.length s) s with
    | String c rest =>
        if negb (not_bs_s c) then Some (kw +:+ String c (take_while not_bs_s rest))
        else None
    | EmptyString => None
    end
  else None.

(** [re.search]: the leftmost position where the anchored matcher succeeds. *)
Fixpoint search (m : string -> option string) (s : string) : option string :=
  match m s with
  | Some r => Some r
  | None => match s with
            | EmptyString => None
            | String _ s' => search m s'
            end
  end.

(** [path_patterns], in order. *)
Definition path_patterns : list (string -> option string) :=
  [match_unix; match_windows; match_keyword "project";
   match_keyword "directory"; match_keyword "path"].

(** The first pattern that matches, and the match cleaned by the three
    [replace] calls. *)
Fixpoint first_match (ps : list (string -> option string)) (s : string) : option string :=
  match ps with
  | [] => None
  | p :: ps' => match search p s with
                | Some m => Some m
                | None => first_match ps' s
                end
  end.

Definition clean_path (p : string) : string :=
  replace "path " "" (replace "directory " "" (replace "project " "" p)).

Definition pattern_extract (user_input : string) : option string :=
  match first_match path_patterns user_input with
  | Some m => Some (clean_path m)
  | None => None
  end.

Definition stop_words : list string :=
  ["analyze"; "scan"; "review"; "check"; "project"; "directory";
   "path"; "for"; "the"; "a"; "an"; "security"; "issues"; "1"; "2"; "3"; "4"; "5"].

(** The loop body over one word: [potential_paths] is the Python set. *)
Definition scan_word (F : fs) (potential_paths : gset string) (word : string)
  : gset string :=
  if bool_decide (lower word ∈ stop_words) then potential_paths
  else
    let pp1 := if isdir F word then {[ abspath F word ]} ∪ potential_paths
               else potential_paths in
    let potential_path := path_join (cwd F) word in
    if isdir F potential_path then {[ abspath F potential_path ]} ∪ pp1 else pp1.

Definition token_candidates (F : fs) (user_input : string) : gset string :=
  fold_left (scan_word F) (split_ws user_input) ∅.

(** [Reasoner.extract_path]: the returned [option string] is Python's
    [None] or [str]; the state carries the write to [self.ambiguous_paths].
    [elements] stands for [list(potential_paths)], whose order Python
    leaves to the set implementation. *)
Definition extract_path (F : fs) (st : state) (user_input : string)
  : option string * state :=
  match pattern_extract user_input with
  | Some p => (Some p, st)
  | None =>
      match elements (token_candidates F user_input) with
      | [] => (None, st)
      | [p] => (Some p, st)
      | l => (Some "AMBIGUOUS", set_ambiguous st l)
      end
  end.

(** ** [Reasoner.handle_path_selection] *)

Definition is_digit (c : ascii) : bool :=
  Nat.leb 48 (nat_of_ascii c) && Nat.leb (nat_of_ascii c) 57.

(** Digits with single underscores between them, as [int()] accepts. *)
Fixpoint digits_val (s : string) (acc : Z) (after_us : bool) : option Z :=
  match s with
  | EmptyString => if after_us then None else Some acc
  | String c s' =>
      if is_digit c then
        digits_val s' (acc * 10 + Z.of_nat (nat_of_ascii c - 48))%Z false
      else if Ascii.eqb c "_"%char && negb after_us then digits_val s' acc true
      else None
  end.

Definition unsigned_int (s : string) : option Z :=
  match s with
  | String c _ => if is_digit c then digits_val s 0%Z false else None
  | EmptyString => None
  end.

(** [int(s)] on a [str]: [None] where Python raises [ValueError]. *)
Definition py_int (s : string) : option Z :=
  match strip s with
  | String c r =>
      if Ascii.eqb c "+"%char then unsigned_int r
      else if Ascii.eqb c "-"%char then option_map Z.opp (unsigned_int r)
      else unsigned_int (String c r)
  | EmptyString => None
  end.

Definition clear_selection (st : state) : state :=
  set_waiting (set_ambiguous st []) false.

Definition invalid_number_msg : string :=
  "QUESTION: Invalid selection. Please choose a number from the list.".
Definition invalid_path_msg : string :=
  "QUESTION: Please enter a valid number from the list or provide a full path.".

Definition handle_path_selection (F : fs) (st : state) (user_input : string)
  : string * state :=
  match py_int (strip user_input) with
  | Some i =>
      let selection := (i - 1)%Z in
      if (0 <=? selection)%Z && (selection <? Z.of_nat (length (ambiguous_paths st)))%Z
      then (nth (Z.to_nat selection) (ambiguous_paths st) "", clear_selection st)
      else (invalid_number_msg, st)
  | None =>
      if isdir F user_input then (user_input, clear_selection st)
      else (invalid_path_msg, st)
  end.

(** ** The section extraction of [Reasoner.analyze] *)

(** The text after the first occurrence of [label] ([re.search] of a
    pattern starting with the literal label). *)
Fixpoint after_first (label s : string) : option string :=
  if startswith s label
  then Some (substring (String.length label) (String.length s) s)
  else match s with
       | EmptyString => None
       | String _ s' => after_first label s'
       end.

(** The lazy [(.*?)] followed by [(?=next|\Z)]: everything up to the first
    occurrence of [next], or to the end of the text. *)
Fixpoint until_first (next s : string) : string :=
  if startswith s next then EmptyString
  else match s with
       | EmptyString => EmptyString
       | String c s' => String c (until_first next s')
       end.

(** Group 1 of [re.search] with the pattern [label\s*(.*?)(?=next|\Z)]
    and [re.DOTALL]. *)
Definition section_to (label next s : string) : option string :=
  match after_first label s with
  | Some rest => Some (until_first next (lstrip rest))
  | None => None
  end.

(** Group 1 of [re.search] with the pattern: the label, [\s*], a greedy
    capture of any characters, then [$], under [re.DOTALL]. *)
Definition section_to_end (label s : string) : option string :=
  match after_first label s with
  | Some rest => Some (lstrip rest)
  | None => None
  end.

Record report := mkReport {
  assessment : string; risk_level : string; recommendations : string; questions : string
}.

Definition field_or (m : option string) (default : string) : string :=
  match m with Some g => strip g | None => default end.

(** Lines 323-331 of [analyze]. *)
Definition extract_report (decision : string) : report :=
  mkReport
    (field_or (section_to "ASSESSMENT:" "RISK_LEVEL:" decision) "No assessment provided")
    (field_or (section_to "RISK_LEVEL:" "RECOMMENDATIONS:" decision) "Unknown")
    (field_or (section_to "RECOMMENDATIONS:" "QUESTIONS:" decision) "No recommendations")
    (field_or (section_to_end "QUESTIONS:" decision) "null").

(** ** [Reasoner.analyze] *)

(** The external collaborators of [analyze], as functions of what the
    code sends them: [scan_context] is the context text built at lines
    282-287 from [ProjectManager.run_scan], [run_audit] and the
    language-specific scans of a user request and a directory;
    [assess] is the stripped completion for the assessment prompt around a
    context; [fix_completion] the stripped completion of
    [generate_fix_code] ([None] where it catches an exception);
    [classify] and [optimize] the stripped completions for the two
    code-request prompts; [generate_code] is [Coder.generate_code]. *)
Record services := mkServices {
  scan_context : string -> string -> string;
  assess : string -> string;
  fix_completion : string -> option string;
  classify : string -> string;
  optimize : string -> string;
  generate_code : string -> string
}.

Definition project_keywords : list string :=
  ["project"; "directory"; "file"; "scan"; "audit"; "fix";
   "vulnerability"; "review"; "analyze"; "check"; "security"].

(** Python truthiness of an optional string. *)
Definition truthy (o : option string) : bool :=
  match o with Some s => negb (String.eqb s "") | None => false end.

(** [Reasoner.generate_fix_code] *)
Definition generate_fix_code (svc : services) (recommendations : string) : option string :=
  if String.eqb recommendations "" || String.eqb recommendations "No recommendations"
  then None
  else fix_completion svc recommendations.

(** Lines 322-363: extraction of the four sections and the final text. *)
Definition assessment_response (svc : services) (context : string) : string :=
  let r := extract_report (assess svc context) in
  let fix_code :=
    if negb (String.eqb (recommendations r) "No recommendations")
    then generate_fix_code svc (recommendations r) else None in
  let final_response :=
    nl +:+ "SECURITY ASSESSMENT REPORT" +:+ nl +:+ "==========================" +:+ nl +:+
    "Risk Level: " +:+ risk_level r +:+ nl +:+ nl +:+
    "Assessment:" +:+ nl +:+ assessment r +:+ nl +:+ nl +:+
    "Recommendations:" +:+ nl +:+ recommendations r +:+ nl in
  let final_response :=
    match fix_code with
    | Some f =>
        if String.eqb f "" then final_response
        else final_response +:+ nl +:+ nl +:+ "AUTOMATED FIXES:" +:+ nl +:+
             "================" +:+ nl +:+
             "Here's code to implement the recommendations:" +:+ nl +:+ nl +:+
             f +:+ nl
    | None => final_response
    end in
  if negb (String.eqb (questions r) "null")
  then "QUESTION: " +:+ questions r +:+ nl +:+ nl +:+ final_response
  else final_response.

(** Lines 369-424: a request that is not about a project. *)
Definition coding_response (svc : services) (user_input : string) : string :=
  let decision := classify svc user_input in
  if String.eqb decision "CODE_GENERATION_APPROVED"
  then generate_code svc (optimize svc user_input)
  else "QUESTION: " +:+ decision.

Definition ambiguous_question (paths : list string) : string :=
  let paths_list :=
    join nl (imap (fun i p => pretty (N.of_nat (S i)) +:+ ". " +:+ p) paths) in
  "QUESTION: I found multiple directories with that name. Which one did you mean?" +:+
  nl +:+ paths_list +:+ nl +:+ "Please enter the number:".

Definition ask_path_msg : string :=
  "QUESTION: Please provide the path to the project you want me to analyze.".

Definition invalid_dir_msg (p : string) : string :=
  "QUESTION: The path '" +:+ p +:+
  "' doesn't exist or is not a directory. Please provide a valid path.".

(** Lines 244-424: [analyze] on a fresh request. *)
Definition analyze_request (F : fs) (svc : services) (st : state) (user_input : string)
  : string * state :=
  let st := set_original st user_input in
  let is_project_request :=
    existsb (fun k => contains (lower user_input) k) project_keywords in
  let '(project_path, st) := extract_path F st user_input in
  if bool_decide (project_path = Some "AMBIGUOUS") then
    (ambiguous_question (ambiguous_paths st), set_waiting st true)
  else if is_project_request || truthy project_path then
    match project_path with
    | Some p =>
        if String.eqb p "" then (ask_path_msg, st)
        else if negb (isdir F p) then (invalid_dir_msg p, st)
        else
          let ctx := scan_context svc user_input p in
          (assessment_response svc ctx, set_project st p ctx)
    | None => (ask_path_msg, st)
    end
  else (coding_response svc user_input, st).

(** [Reasoner.analyze]: a pending selection is resolved first; a selected
    path is stored and the stored original request analysed again. *)
Definition analyze (F : fs) (svc : services) (st : state) (user_input : string)
  : string * state :=
  if waiting_for_path_selection st then
    let '(path_result, st) := handle_path_selection F st user_input in
    if startswith path_result "QUESTION:" then (path_result, st)
    else
      let st := set_current_path st path_result in
      analyze_request F svc st (original_request st)
  else analyze_request F svc st user_input.

(** ** [Reasoner.deduplicate_recommendations] *)

(** The loop over [lines] with the set [seen] of stripped lines. *)
Fixpoint dedup_lines (lines : list string) (seen : gset string) : list string :=
  match lines with
  | [] => []
  | line :: rest =>
      let clean_line := strip line in
      if negb (String.eqb clean_line "") && bool_decide (clean_line ∉ seen)
      then line :: dedup_lines rest ({[ clean_line ]} ∪ seen)
      else dedup_lines rest seen
  end.

Definition deduplicate_recommendations (text : string) : string :=
  if String.eqb text "" then text
  else join nl (dedup_lines (split_on (chr 10) text) ∅).

End Reasoner.

(* ------------------------------------------------------------------ *)
(** ** [ProjectManager] *)

Module ProjectManager.
Import Py.

(** The JSON-like Python values held in the result dictionaries. *)
#[warnings="-register-all"]
Inductive pyval :=
| PStr (s : string)
| PInt (z : Z)
| PNone
| PBool (b : bool)
| PList (l : list pyval)
| PDict (d : list (string * pyval)).

(** A [dict] with string keys, in insertion order, keys distinct. *)
Definition dict := list (string * pyval).

(** Python truthiness. *)
Definition truthy (v : pyval) : bool :=
  match v with
  | PStr s => negb (String.eqb s "")
  | PInt z => negb (Z.eqb z 0)
  | PNone => false
  | PBool b => b
  | PList l => negb (Nat.eqb (length l) 0)
  | PDict d => negb (Nat.eqb (length d) 0)
  end.

(** [d.get(key)] *)
Fixpoint get (d : dict) (key : string) : pyval :=
  match d with
  | [] => PNone
  | (k, v) :: d' => if String.eqb k key then v else get d' key
  end.

Definition has_key (d : dict) (key : string) : bool :=
  existsb (fun kv => String.eqb (fst kv) key) d.

(** [result and not result.get(error)] *)
Definition accepts (result : dict) : bool :=
  truthy (PDict result) && negb (truthy (get result "error")).

(** The loop of [_run_semgrep_with_fallback] and
    [_run_osv_audit_with_fallback] over the results the strategies return
    when called in order (each strategy catches its own exceptions and
    returns a dict). The number is how many strategies were called. *)
Fixpoint run_with_fallback (results : list dict) (failure : dict) : dict * nat :=
  match results with
  | [] => (failure, 0)
  | result :: rest =>
      if accepts result
      then (result, 1)
      else let '(r, n) := run_with_fallback rest failure in (r, S n)
  end.

Definition semgrep_failure : dict :=
  [("error", PStr "All Semgrep scanning strategies failed");
   ("suggested_fix", PStr "Check Semgrep installation: pip install semgrep")].

Definition osv_failure : dict :=
  [("error", PStr "All OSV-Scanner strategies failed");
   ("suggested_fix", PStr "Install OSV-Scanner: winget install Google.OSVScanner")].

(** [_run_semgrep_with_fallback] given the results of [_run_semgrep_basic],
    [_run_semgrep_security] and [_run_semgrep_auto]. *)
Definition run_semgrep_with_fallback (basic security auto : dict) : dict :=
  fst (run_with_fallback [basic; security; auto] semgrep_failure).

(** [_run_osv_audit_with_fallback] given the results of the standard,
    recursive and lockfile invocations. *)
Definition run_osv_audit_with_fallback (standard recursive lockfile : dict) : dict :=
  fst (run_with_fallback [standard; recursive; lockfile] osv_failure).

(** The strategies once their tool has run, given its exit code, its
    parsed [stdout] and its [stderr]: [_run_semgrep_basic] and
    [_run_osv_audit_standard] return [{"error": stderr, "returncode": rc}]
    on a non-zero exit, the other strategies [{"error": stderr}]. *)
Definition run_semgrep_basic (returncode : Z) (stdout_json : dict) (stderr : string) : dict :=
  if Z.eqb returncode 0 then stdout_json
  else [("error", PStr stderr); ("returncode", PInt returncode)].

Definition run_semgrep_security (returncode : Z) (stdout_json : dict) (stderr : string) : dict :=
  if Z.eqb returncode 0 then stdout_json else [("error", PStr stderr)].

Definition run_osv_audit_standard (returncode : Z) (stdout_json : dict) (stderr : string) : dict :=
  if Z.eqb returncode 0 then stdout_json
  else [("error", PStr stderr); ("returncode", PInt returncode)].

Definition run_osv_audit_recursive (returncode : Z) (stdout_json : dict) (stderr : string) : dict :=
  if Z.eqb returncode 0 then stdout_json else [("error", PStr stderr)].

(** The results of the filesystem probes of one [run_scan]. *)
Record probes := mkProbes {
  languages : pyval;          (* detect_languages() *)
  structure : pyval;          (* get_file_structure() *)
  file_contents : pyval;      (* analyze_file_contents() *)
  semgrep_results : dict * dict * dict;  (* the three Semgrep strategies *)
  potential_issues : pyval;   (* _identify_potential_issues() *)
  detect_frameworks : pyval -> pyval    (* detect_frameworks(contents) *)
}.

(** [ProjectManager.run_scan] *)
Definition run_scan (p : probes) : dict :=
  let '(b, s, a) := semgrep_results p in
  [("languages", languages p);
   ("structure", structure p);
   ("file_contents", file_contents p);
   ("semgrep_scan", PDict (run_semgrep_with_fallback b s a));
   ("potential_issues", potential_issues p);
   ("detected_frameworks", detect_frameworks p (file_contents p))].

(** [generate_requirements_fix] *)
Definition version_updates : list (string * string) :=
  [("requests", ">=2.31.0"); ("flask", ">=2.3.3"); ("django", ">=4.2.4");
   ("numpy", ">=1.24.0"); ("setuptools", ">=68.0.0")].

Definition fix_line (line : string) : string :=
  let line := strip line in
  if String.eqb line "" || startswith line "#" then line
  else match List.find (fun pv => startswith line (fst pv +:+ "==")) version_updates with
       | Some (pkg, new_version) => pkg +:+ new_version
       | None => line
       end.

Definition generate_requirements_fix (current_content : string) : string :=
  if String.eqb current_content ""
  then "# No requirements.txt content available for fixing"
  else join nl (map fix_line (split_on (chr 10) current_content)).

End ProjectManager.

(* ------------------------------------------------------------------ *)
(** ** Concrete filesystems and services used by the examples *)

Module Fixtures.
Import Py FS Reasoner.

(** A working directory [/home/u] holding the directories [demo], [x]
    and [1]. *)
Definition home_fs : fs :=
  mkFS (fun p => String.eqb p "/home/u/demo" || String.eqb p "/home/u/x" ||
                 String.eqb p "/home/u/1")
       "/home/u".

(** A filesystem with no directory at all. *)
Definition empty_fs : fs := mkFS (fun _ => false) "/home/u".

Definition sample_decision : string :=
  "ASSESSMENT: ok" +:+ nl +:+ "RISK_LEVEL: Low" +:+ nl +:+
  "RECOMMENDATIONS: patch X" +:+ nl +:+ "QUESTIONS: null".

Definition fixed_services : services :=
  mkServices (fun _ _ => "context") (fun _ => sample_decision) (fun _ => None)
             (fun _ => "CODE_GENERATION_APPROVED") (fun u => u) (fun _ => "code").

(** A session in which [/home/u/demo] was analysed in an earlier turn. *)
Definition demo_session : state :=
  set_project (set_original init "scan demo") "/home/u/demo" "context".

End Fixtures.

(** The four labels of an assessment, and texts built from them. *)
Module Labels.
Import Py.

Definition labels : list string :=
  ["ASSESSMENT:"; "RISK_LEVEL:"; "RECOMMENDATIONS:"; "QUESTIONS:"].

(** None of the four labels occurs in [s]. *)
Definition no_label (s : string) : bool :=
  forallb (fun L => negb (contains s L)) labels.

(** [clash u L]: [u] and [L] differ at some position both have, so no
    string starting with [u] starts with [L]. *)
Fixpoint clash (u L : string) : bool :=
  match u, L with
  | String a u', String b L' => negb (Ascii.eqb a b) || clash u' L'
  | _, _ => false
  end.

(** No occurrence of [L] starts inside the literal [lit]. *)
Fixpoint skip_ok (lit L : string) : bool :=
  match lit with
  | EmptyString => true
  | String c lit' => clash (String c lit') L && skip_ok lit' L
  end.

(** [M] clashes with every proper non-empty suffix of [L]: an occurrence
    of [L] that starts before [M] and does not end before it cannot
    exist. *)
Definition suffix_clash (M L : string) : bool :=
  forallb (fun i => clash M (substring i (String.length L) L))
          (seq 1 (String.length L - 1)).

(** A reasoning-service response: a preamble, then the three labelled
    sections without [RISK_LEVEL:]; and the same response with a risk
    section. *)
Definition text_without_risk (pre a r q : string) : string :=
  pre +:+ "ASSESSMENT:" +:+ a +:+ "RECOMMENDATIONS:" +:+ r +:+ "QUESTIONS:" +:+ q.

Definition text_with_risk (pre a k r q : string) : string :=
  pre +:+ "ASSESSMENT:" +:+ a +:+ "RISK_LEVEL:" +:+ k +:+
  "RECOMMENDATIONS:" +:+ r +:+ "QUESTIONS:" +:+ q.

End Labels.

(** The de-duplication described line by line: a line is kept when its
    stripped form is non-empty and differs from the stripped forms of all
    earlier lines. *)
Module DedupSpec.
Import Py.

Fixpoint keep_first (prev lines : list string) : list string :=
  match lines with
  | [] => []
  | l :: rest =>
      if negb (String.eqb (strip l) "") && bool_decide (strip l ∉ map strip prev)
      then l :: keep_first (prev ++ [l]) rest
      else keep_first (prev ++ [l]) rest
  end.

End DedupSpec.

(** The dialogue invariant between the pending choices and the flag. *)
Module Invariant.
Import Reasoner.

Definition selection_inv (st : state) : Prop :=
  ambiguous_paths st <> [] <-> waiting_for_path_selection st = true.

End Invariant.

(** Strategy results used by the fallback examples. *)
Module Results.
Import ProjectManager.

Definition error_dict : dict := [("error", PStr "boom")].
Definition ok_dict : dict := [("results", PList [])].

End Results.

(* ------------------------------------------------------------------ *)
(** ** Python dicts with string keys *)

(** A [dict] as an association list in insertion order with distinct
    keys: [d.get(k)] and [d[k] = v] (an existing key keeps its place, a new
    key goes last). *)
Module PyDict.

Fixpoint dict_get {A} (d : list (string * A)) (k : string) : option A :=
  match d with
  | [] => None
  | (k', v) :: d' => if String.eqb k' k then Some v else dict_get d' k
  end.

Fixpoint dict_set {A} (d : list (string * A)) (k : string) (v : A)
  : list (string * A) :=
  match d with
  | [] => [(k, v)]
  | (k', v') :: d' =>
      if String.eqb k' k then (k, v) :: d' else (k', v') :: dict_set d' k v
  end.

End PyDict.

(* ------------------------------------------------------------------ *)
(** ** The filesystem probes of [ProjectManager] *)

Module Probes.
Import Py FS ProjectManager PyDict.

(** One triple [(root, dirs, files)] yielded by [os.walk(self.base_path)];
    a walk is the list of them in the order [os.walk] yields them.
    [os.walk] reports no error by default ([onerror=None]), so the
    [except] branches around the walks below are never taken. *)
Record walk_entry := mkWalk { root : string; dirs : list string; files : list string }.

(** [str.rfind] of one character: [-1] when absent. *)
Fixpoint rfind_aux (c : ascii) (s : string) (i : nat) (best : Z) : Z :=
  match s with
  | EmptyString => best
  | String d s' => rfind_aux c s' (S i) (if Ascii.eqb d c then Z.of_nat i else best)
  end.

Definition rfind (s : string) (c : ascii) : Z := rfind_aux c s 0 (-1)%Z.

Fixpoint has_non_dot (s : string) : bool :=
  match s with
  | EmptyString => false
  | String c s' => negb (Ascii.eqb c ".") || has_non_dot s'
  end.

(** The extension returned by [os.path.splitext] ([posixpath._splitext]):
    from the last dot, provided the last dot comes after the last slash and
    some character between them is not a dot (so [.bashrc] has none). *)
Definition splitext_ext (p : string) : string :=
  let sepIndex := rfind p "/" in
  let dotIndex := rfind p "." in
  if (sepIndex <? dotIndex)%Z then
    let filenameIndex := Z.to_nat (sepIndex + 1) in
    if has_non_dot (substring filenameIndex (Z.to_nat dotIndex - filenameIndex) p)
    then substring (Z.to_nat dotIndex) (String.length p) p
    else ""
  else "".

(** [language_extensions] of [detect_languages] *)
Definition language_extensions : list (string * string) :=
  [(".py", "Python"); (".js", "JavaScript"); (".ts", "TypeScript"); (".java", "Java");
   (".cpp", "C++"); (".c", "C"); (".cs", "C#"); (".php", "PHP"); (".rb", "Ruby");
   (".go", "Go"); (".rs", "Rust"); (".swift", "Swift"); (".kt", "Kotlin");
   (".html", "HTML"); (".css", "CSS"); (".scss", "SCSS"); (".xml", "XML");
   (".json", "JSON"); (".yml", "YAML"); (".yaml", "YAML")].

(** The body of the inner loop of [detect_languages]: the pair is
    [(language_counts, file_count)]. *)
Definition count_file (acc : list (string * nat) * nat) (file : string)
  : list (string * nat) * nat :=
  let '(language_counts, file_count) := acc in
  match dict_get language_extensions (splitext_ext file) with
  | Some language =>
      (dict_set language_counts language
         (default 0 (dict_get language_counts language) + 1),
       S file_count)
  | None => acc
  end.

(** The files [detect_languages] counts. *)
Definition known (f : string) : bool :=
  bool_decide (is_Some (dict_get language_extensions (splitext_ext f))).

(** [detect_languages]: [languages] and [total_files] of its result. *)
Definition detect_languages (walk : list walk_entry) : list (string * nat) * nat :=
  fold_left (fun acc e => fold_left count_file (files e) acc) walk ([], 0).

(** The test on each part of [root.split(os.path.sep)] in
    [get_file_structure]. *)
Definition skipped_part (part : string) : bool :=
  startswith part "." || bool_decide (part ∈ ["venv"; ".venv"; "node_modules"]).

Definition not_hidden (name : string) : bool := negb (startswith name ".").

(** [get_file_structure]: the lists [files] and [directories]. *)
Definition get_file_structure (walk : list walk_entry) : list string * list string :=
  fold_left
    (fun (acc : list string * list string) (e : walk_entry) =>
       let '(fs_, ds) := acc in
       if existsb skipped_part (split_on "/" (root e)) then (fs_, ds)
       else (fs_ ++ map (path_join (root e)) (List.filter not_hidden (files e)),
             ds ++ map (path_join (root e)) (List.filter not_hidden (dirs e)))%list)
    walk ([], []).

Definition sensitive_files : list string :=
  [".env"; "config.json"; "secrets.txt"; "credentials.json"].

(** The issues found for one file of [_identify_potential_issues];
    [stat_mode] is [os.stat(path).st_mode], [None] where [os.stat] raises
    (the bare [except] passes). [0o777] is 511, and [&] binds tighter than
    [==] in Python. *)
Definition file_issues (stat_mode : string -> option Z) (root file : string)
  : list string :=
  let file_path := path_join root file in
  (if bool_decide (file ∈ sensitive_files)
   then ["Potential sensitive file: " +:+ file_path] else []) ++
  match stat_mode file_path with
  | Some m => if Z.eqb (Z.land m 511) 511
              then ["World-writable file: " +:+ file_path] else []
  | None => []
  end.

(** [_identify_potential_issues] *)
Definition identify_potential_issues (stat_mode : string -> option Z)
  (walk : list walk_entry) : list string :=
  flat_map (fun e => flat_map (file_issues stat_mode (root e)) (files e)) walk.

(** What opening a file and reading it gives: the decoded text, a
    [UnicodeDecodeError], or another exception, each with [str(e)]. *)
Inductive open_result :=
| Decoded (text : string)
| DecodeError (msg : string)
| OpenError (msg : string).

(** The files seen by [os.path.exists] and by [open(path, 'r', encoding)]
    followed by [read()] ([""] stands for the default encoding). *)
Record files_view := mkFiles {
  path_exists : string -> bool;
  read_as : string -> string -> open_result
}.

(** [f.read(1000)]: the first 1000 characters. *)
Definition read_1000 (text : string) : string := substring 0 1000 text.

Definition dependency_file_names : list string :=
  ["requirements.txt"; "package.json"; "pom.xml"; "build.gradle"; "go.mod";
   "Cargo.toml"; "composer.json"; "Gemfile"].

(** The [try] block of [_find_dependency_files] for an existing file. *)
Definition read_dependency_file (D : files_view) (file_path : string) : pyval :=
  match read_as D file_path "utf-8" with
  | Decoded content =>
      PDict [("exists", PBool true); ("content", PStr (read_1000 content));
             ("encoding", PStr "utf-8")]
  | DecodeError _ =>
      match read_as D file_path "utf-16" with
      | Decoded content =>
          PDict [("exists", PBool true); ("content", PStr (read_1000 content));
                 ("encoding", PStr "utf-16");
                 ("warning", PStr "UTF-16 encoding may cause issues with some tools")]
      | DecodeError e | OpenError e => PDict [("exists", PBool true); ("error", PStr e)]
      end
  | OpenError e => PDict [("exists", PBool true); ("error", PStr e)]
  end.

(** [_find_dependency_files] *)
Definition find_dependency_files (D : files_view) (base_path : string) : dict :=
  map (fun dep_file =>
         let file_path := path_join base_path dep_file in
         (dep_file, if path_exists D file_path then read_dependency_file D file_path
                    else PNone))
      dependency_file_names.

Definition outdated_indicators : list string :=
  ["requests==2.25"; "flask==1.1"; "django==3.1"; "numpy==1.19"].

Definition no_pinning_msg : string := "requirements.txt might not have version pinning".

(** [_manual_dependency_checks] *)
Definition manual_dependency_checks (D : files_view) (base_path : string) : list string :=
  let requirements_path := path_join base_path "requirements.txt" in
  if path_exists D requirements_path then
    match read_as D requirements_path "" with
    | Decoded content =>
        (if negb (contains content "==") && negb (contains content ">=")
         then [no_pinning_msg] else []) ++
        map (fun indicator => "Outdated package detected: " +:+ indicator)
            (List.filter (contains content) outdated_indicators)
    | DecodeError e | OpenError e => ["Error reading requirements.txt: " +:+ e]
    end
  else [].

(** [run_audit], given the result of [_run_osv_audit_with_fallback]. *)
Definition run_audit (D : files_view) (base_path : string) (osv : dict) : dict :=
  [("osv_scanner", PDict osv);
   ("dependency_files", PDict (find_dependency_files D base_path));
   ("manual_checks", PList (map PStr (manual_dependency_checks D base_path)))].

(** [requirements_fix] of [get_summary] ([None] for Python's [None]); the
    values under [dependency_files] are [None] or dicts, so the other
    cases do not occur. *)
Definition summary_requirements_fix (audit_results : dict) : option string :=
  if has_key audit_results "dependency_files" then
    match get audit_results "dependency_files" with
    | PDict deps =>
        if has_key deps "requirements.txt" && truthy (get deps "requirements.txt") then
          match get deps "requirements.txt" with
          | PDict req =>
              if has_key req "content" then
                match get req "content" with
                | PStr req_content => Some (generate_requirements_fix req_content)
                | _ => None
                end
              else None
          | _ => None
          end
        else None
    | _ => None
    end
  else None.

(** [framework_indicators] of [detect_frameworks]; [q] is a double quote. *)
Definition q : string := str1 (chr 34).

Definition framework_indicators : list (string * list string) :=
  [("flask", ["from flask"; "import Flask"; "@app.route"; "flask.Flask"]);
   ("django", ["from django"; "DJANGO_SETTINGS"; "django.db"; "django.contrib"]);
   ("fastapi", ["from fastapi"; "import FastAPI"; "fastapi.FastAPI"]);
   ("express", ["require(" +:+ q +:+ "express" +:+ q +:+ ")"; "const express ="; "express()"]);
   ("react", ["import React"; "react-dom"; "JSX"; "useState"]);
   ("vue", ["import Vue"; "new Vue"; "vue-create"]);
   ("angular", ["@angular"; "import { Component }"; "angular.module"])].

(** The frameworks whose indicators occur in one file's content. *)
Definition frameworks_in (detected : gset string) (content : string) : gset string :=
  fold_left
    (fun d fi =>
       if existsb (fun indicator => contains (lower content) (lower indicator)) (snd fi)
       then {[ fst fi ]} ∪ d else d)
    framework_indicators detected.

(** [detect_frameworks]: the set [detected_frameworks] ([list(...)] of it
    has no order fixed by Python). Values that are not [str] are skipped. *)
Definition detect_frameworks (code_content : dict) : gset string :=
  fold_left
    (fun detected kv =>
       match snd kv with
       | PStr content => frameworks_in detected content
       | _ => detected
       end)
    code_content ∅.

(** [analyze_file_contents]: the important files that exist, in the
    order of the list, with their whole text (UTF-8, else UTF-16, else an
    error text). *)
Definition important_files : list string :=
  ["main.py"; "example.py"; "app.py"; "index.py"; "requirements.txt";
   "package.json"; "dockerfile"; "docker-compose.yml"].

Definition read_file_content (D : files_view) (file file_path : string) : string :=
  match read_as D file_path "utf-8" with
  | Decoded content => content
  | DecodeError _ =>
      match read_as D file_path "utf-16" with
      | Decoded content => content
      | DecodeError e | OpenError e => "Error reading " +:+ file +:+ ": " +:+ e
      end
  | OpenError e => "Error reading " +:+ file +:+ ": " +:+ e
  end.

Definition analyze_file_contents (D : files_view) (base_path : string) : dict :=
  fold_left
    (fun code_content file =>
       let file_path := path_join base_path file in
       if path_exists D file_path
       then dict_set code_content file (PStr (read_file_content D file file_path))
       else code_content)
    important_files [].

(** A project whose [requirements.txt] pins an old [requests]. *)
Definition old_requests_files : files_view :=
  mkFiles (fun _ => true) (fun _ _ => Decoded "requests==2.25.1").

End Probes.

(* ------------------------------------------------------------------ *)
(** ** The other helpers of [Reasoner] *)

Module ReasonerTools.
Import Py Reasoner ProjectManager PyDict.

(** [self.security_tools] as set by [Reasoner.__init__] *)
Definition security_tools : list (string * list string) :=
  [("Python", ["bandit"; "safety"; "pylint"]);
   ("JavaScript", ["npm audit"; "eslint"; "snyk"]);
   ("Java", ["spotbugs"; "dependency-check"]);
   ("Go", ["gosec"; "staticcheck"]);
   ("Ruby", ["brakeman"; "bundler-audit"]);
   ("PHP", ["phpcs"; "phpmd"]);
   ("C#", ["security-code-scan"]);
   ("C/C++", ["cppcheck"; "flawfinder"])].

Definition scan_key (language tool : string) : string := language +:+ "_" +:+ tool.
Definition scan_note (tool : string) : string := "Would run " +:+ tool +:+ " scan".

(** The body of the loop over [languages] of [run_language_specific_scans]
    (the [try] body cannot raise). *)
Definition scan_language (results : list (string * string)) (language : string)
  : list (string * string) :=
  match dict_get security_tools language with
  | Some tools =>
      fold_left (fun r tool => dict_set r (scan_key language tool) (scan_note tool))
                tools results
  | None => results
  end.

(** [run_language_specific_scans] *)
Definition run_language_specific_scans (languages : list string) : list (string * string) :=
  fold_left scan_language languages [].

(** The [(language, tool)] pairs of [security_tools]. *)
Definition tool_pairs : list (string * string) :=
  flat_map (fun lt => map (fun t => (fst lt, t)) (snd lt)) security_tools.

Definition dict_keys (v : pyval) : list string :=
  match v with PDict d => map fst d | _ => [] end.

(** Lines 274-278 of [analyze]: [language_specific_results]. *)
Definition language_specific_results (scan_results : dict) : list (string * string) :=
  if has_key scan_results "languages_detected" && truthy (get scan_results "languages_detected")
  then run_language_specific_scans (dict_keys (get scan_results "languages_detected"))
  else [].

Fixpoint repeat_str (n : nat) (s : string) : string :=
  match n with O => "" | S k => s +:+ repeat_str k s end.

(** The emoji of the section titles are code points above 255; they are
    written here as their UTF-8 bytes. *)
Definition lock_emoji : string := String (chr 240) (String (chr 159) (String (chr 148) (str1 (chr 146)))).
Definition clipboard_emoji : string := String (chr 240) (String (chr 159) (String (chr 147) (str1 (chr 139)))).
Definition bulb_emoji : string := String (chr 240) (String (chr 159) (String (chr 146) (str1 (chr 161)))).
Definition zap_emoji : string := String (chr 226) (String (chr 154) (str1 (chr 161))).
Definition rocket_emoji : string := String (chr 240) (String (chr 159) (String (chr 154) (str1 (chr 128)))).

Definition report_header (risk_level : string) : list string :=
  [lock_emoji +:+ " SECURITY ASSESSMENT REPORT"; repeat_str 50 "=";
   "Risk Level: " +:+ risk_level; ""].

Definition next_steps : list string :=
  [rocket_emoji +:+ " NEXT STEPS:"; repeat_str 30 "-";
   "1. Review the assessment above";
   "2. Implement the recommended fixes";
   "3. Run security scans to verify improvements";
   "4. Consider implementing continuous security monitoring"].

(** [Reasoner.format_security_report]; [fix_code] is [None] by default. *)
Definition format_security_report (assessment risk_level recommendations : string)
  (fix_code : option string) : string :=
  let report := report_header risk_level in
  let report := (report ++ [clipboard_emoji +:+ " ASSESSMENT:"; repeat_str 30 "-"; assessment; ""])%list in
  let report :=
    if negb (String.eqb recommendations "") &&
       negb (String.eqb recommendations "No recommendations")
    then (report ++ [bulb_emoji +:+ " RECOMMENDATIONS:"; repeat_str 30 "-"; recommendations; ""])%list
    else report in
  let report :=
    if Reasoner.truthy fix_code then
      (report ++ [zap_emoji +:+ " AUTOMATED FIXES:"; repeat_str 30 "-";
                  "The following code can implement these recommendations:"; "";
                  default "" fix_code; ""])%list
    else report in
  join nl (report ++ next_steps)%list.

End ReasonerTools.

(* ------------------------------------------------------------------ *)
(** ** [Augment.send_to_reasoner] *)

Module Augment.
Import Py FS Reasoner.

(** The question loop: [answers] are the user's replies to the successive
    questions; [None] when a question is asked and no answer is left.
    Printing and the extraction of the question text do not change what
    the loop does. *)
Fixpoint send_to_reasoner (F : fs) (svc : services) (st : state)
  (user_request : string) (answers : list string) : option string * state :=
  let '(response, st) := analyze F svc st user_request in
  if startswith response "QUESTION:" then
    match answers with
    | [] => (None, st)
    | user_answer :: rest =>
        send_to_reasoner F svc st (user_request +:+ " " +:+ user_answer) rest
    end
  else (Some response, st).

(** The requests the loop passes to [analyze], when every one of them is
    answered by a question. *)
Fixpoint requests (user_request : string) (answers : list string) : list string :=
  match answers with
  | [] => [user_request]
  | a :: rest => user_request :: requests (user_request +:+ " " +:+ a) rest
  end.

End Augment.

(* ================================================================== *)
(** * Properties *)

Module PathProofs.
Import Py FS Reasoner Fixtures.

Lemma scan_word_stop (F : fs) (acc : gset string) (w : string) :
  lower w ∈ stop_words -> scan_word F acc w = acc.
Proof. intros H. unfold scan_word. by rewrite bool_decide_eq_true_2. Qed.

Lemma scan_word_no_dir (F : fs) (acc : gset string) (w : string) :
  (lower w ∉ stop_words -> isdir F w = false /\ isdir F (path_join (cwd F) w) = false) ->
  scan_word F acc w = acc.
Proof.
  intros H. unfold scan_word.
  destruct (bool_decide (lower w ∈ stop_words)) eqn:E; [done|].
  apply bool_decide_eq_false_1 in E. destruct (H E) as [-> ->]. done.
Qed.

Lemma fold_scan_no_dir (F : fs) (ws : list string) (acc : gset string) :
  (forall w, w ∈ ws -> lower w ∉ stop_words ->
     isdir F w = false /\ isdir F (path_join (cwd F) w) = false) ->
  fold_left (scan_word F) ws acc = acc.
Proof.
  revert acc. induction ws as [|w ws IH]; intros acc H; [done|].
  simpl. rewrite scan_word_no_dir.
  - apply IH. intros w' Hw'. apply H. by right.
  - apply H. by left.
Qed.

(** With no non-stop word naming a directory, the token scan finds
    nothing and [extract_path] is the pattern extraction. *)
Lemma extract_path_no_tokens (F : fs) (st : state) (user_input : string) :
  (forall w, w ∈ split_ws user_input -> lower w ∉ stop_words ->
     isdir F w = false /\ isdir F (path_join (cwd F) w) = false) ->
  extract_path F st user_input = (pattern_extract user_input, st).
Proof.
  intros H. unfold extract_path.
  destruct (pattern_extract user_input) as [p|]; [done|].
  unfold token_candidates. rewrite fold_scan_no_dir by done.
  by rewrite elements_empty.
Qed.

(** C2 (amended). When no whitespace-separated token of the input names
    an existing directory, literally or relative to the working
    directory, [extract_path] returns exactly the pattern extraction:
    [None] when none of the five patterns matches, and otherwise the
    cleaned first match, whether or not it exists; the state is
    unchanged. *)
Theorem extract_path_without_directory_tokens (F : fs) (st : state) (user_input : string) :
  (forall w, w ∈ split_ws user_input ->
     isdir F w = false /\ isdir F (path_join (cwd F) w) = false) ->
  extract_path F st user_input = (pattern_extract user_input, st).
Proof. intros H. apply extract_path_no_tokens. intros w Hw _. by apply H. Qed.

Lemma extract_path_without_directory_tokens_witness :
  (forall w, w ∈ split_ws "scan /a/b" ->
     isdir empty_fs w = false /\ isdir empty_fs (path_join (cwd empty_fs) w) = false) /\
  extract_path empty_fs init "scan /a/b" = (Some "/a/b", init).
Proof.
  split.
  - intros w _. split; unfold isdir; simpl; by rewrite !andb_false_r.
  - apply (extract_path_without_directory_tokens empty_fs init "scan /a/b").
    intros w _. split; unfold isdir; simpl; by rewrite !andb_false_r.
Defined.

(** C2 (counterexample). No token of [scan /a/b] names a directory, yet
    [extract_path] returns the Unix-path match [/a/b], not [None]. *)
Lemma extract_path_unix_pattern_unchecked :
  (forall w, w ∈ split_ws "scan /a/b" ->
     isdir empty_fs w = false /\ isdir empty_fs (path_join (cwd empty_fs) w) = false) /\
  fst (extract_path empty_fs init "scan /a/b") = Some "/a/b".
Proof.
  split.
  - intros w _. split; unfold isdir; simpl; by rewrite !andb_false_r.
  - vm_compute. reflexivity.
Qed.

(** C3 (code bug). The keyword pattern [project[\\s][^\\s]*] is a raw
    string, so its class [[\\s]] holds a backslash and the letter [s], not
    whitespace: [project my-app] matches no pattern, and on a filesystem
    without [my-app] [extract_path] returns [None] instead of [my-app]. *)
Theorem project_keyword_pattern_misses_space :
  pattern_extract "project my-app" = None /\
  pattern_extract "directory my-app" = None /\
  pattern_extract "path my-app" = None /\
  fst (extract_path empty_fs init "project my-app") = None.
Proof. vm_compute. repeat split. Qed.

(** C10. A token whose lowercase form is a stop word is skipped without
    any directory test, so when no path pattern matches and every other
    token names no directory, [extract_path] returns [None], even if a
    stop word is itself an existing directory. *)
Theorem extract_path_skips_stop_words (F : fs) (st : state) (user_input : string) :
  (forall acc w, lower w ∈ stop_words -> scan_word F acc w = acc) /\
  (pattern_extract user_input = None ->
   (forall w, w ∈ split_ws user_input -> lower w ∉ stop_words ->
      isdir F w = false /\ isdir F (path_join (cwd F) w) = false) ->
   fst (extract_path F st user_input) = None).
Proof.
  split.
  - intros acc w. apply scan_word_stop.
  - intros Hp H. rewrite extract_path_no_tokens by done. by rewrite Hp.
Qed.

Lemma extract_path_skips_stop_words_witness :
  isdir home_fs "1" = true /\ fst (extract_path home_fs init "scan 1") = None.
Proof.
  split; [vm_compute; reflexivity|].
  apply (proj2 (extract_path_skips_stop_words home_fs init "scan 1")).
  - vm_compute. reflexivity.
  - intros w Hw Hs. vm_compute in Hw.
    apply list_elem_of_In in Hw. destruct Hw as [<-|[<-|[]]];
      exfalso; apply Hs; vm_compute; set_solver.
Defined.

End PathProofs.

Module DialogueProofs.
Import Py FS Reasoner Fixtures.

(** C1 (code bug). On a fresh turn of a project request from which no
    path is extracted, [analyze] asks for a path, whatever
    [current_project_path] holds: the stored directory of an earlier turn
    is never read. *)
Theorem analyze_ignores_stored_project_path (F : fs) (svc : services) (st : state)
    (user_input : string) :
  waiting_for_path_selection st = false ->
  existsb (fun k => contains (lower user_input) k) project_keywords = true ->
  fst (extract_path F (set_original st user_input) user_input) = None ->
  fst (analyze F svc st user_input) = ask_path_msg.
Proof.
  intros Hw Hk He. unfold analyze. rewrite Hw. unfold analyze_request.
  rewrite Hk. destruct (extract_path F (set_original st user_input) user_input)
    as [pp st'] eqn:E. simpl in He. subst pp. reflexivity.
Qed.

Lemma analyze_ignores_stored_project_path_witness :
  current_project_path demo_session = Some "/home/u/demo" /\
  isdir home_fs "/home/u/demo" = true /\
  fst (analyze home_fs fixed_services demo_session "scan it") = ask_path_msg.
Proof.
  split; [reflexivity|]. split; [vm_compute; reflexivity|].
  apply analyze_ignores_stored_project_path; vm_compute; reflexivity.
Defined.

(** C7. [handle_path_selection]: an input that [int()] parses is a
    1-based index, selected when [1 <= i <= len] and rejected otherwise
    with the state unchanged; any other input is selected when it names
    an existing directory and rejected otherwise with the state unchanged.
    A selection clears the candidates and the waiting flag. On [A;B;C],
    [2] selects [B], [5] is rejected, and a word that is neither a number
    nor a directory is rejected. *)
Theorem handle_path_selection_cases (F : fs) :
  (forall (st : state) (user_input : string),
     handle_path_selection F st user_input =
       match py_int (strip user_input) with
       | Some i =>
           if (1 <=? i)%Z && (i <=? Z.of_nat (length (ambiguous_paths st)))%Z
           then (nth (Z.to_nat (i - 1)) (ambiguous_paths st) "", clear_selection st)
           else (invalid_number_msg, st)
       | None =>
           if isdir F user_input then (user_input, clear_selection st)
           else (invalid_path_msg, st)
       end) /\
  (forall st : state, ambiguous_paths st = ["A"; "B"; "C"] ->
     handle_path_selection F st "2" = ("B", clear_selection st) /\
     handle_path_selection F st "5" = (invalid_number_msg, st) /\
     (isdir F "not-a-number-or-path" = false ->
      handle_path_selection F st "not-a-number-or-path" = (invalid_path_msg, st))).
Proof.
  assert (Hgen : forall (st : state) (user_input : string),
     handle_path_selection F st user_input =
       match py_int (strip user_input) with
       | Some i =>
           if (1 <=? i)%Z && (i <=? Z.of_nat (length (ambiguous_paths st)))%Z
           then (nth (Z.to_nat (i - 1)) (ambiguous_paths st) "", clear_selection st)
           else (invalid_number_msg, st)
       | None =>
           if isdir F user_input then (user_input, clear_selection st)
           else (invalid_path_msg, st)
       end).
  { intros st user_input. unfold handle_path_selection.
    destruct (py_int (strip user_input)) as [i|]; [|reflexivity].
    set (n := Z.of_nat (length (ambiguous_paths st))).
    destruct (0 <=? i - 1)%Z eqn:E1, (i - 1 <? n)%Z eqn:E2,
             (1 <=? i)%Z eqn:E3, (i <=? n)%Z eqn:E4; simpl; try reflexivity;
      rewrite ?Z.leb_le, ?Z.leb_gt, ?Z.ltb_lt, ?Z.ltb_ge in *; lia. }
  split; [exact Hgen|].
  intros st Hc. rewrite !Hgen, Hc. repeat split.
  intros Hd.
  assert (Hn : py_int (strip "not-a-number-or-path") = None) by (vm_compute; reflexivity).
  rewrite Hn, Hd. reflexivity.
Qed.

Lemma handle_path_selection_cases_witness :
  handle_path_selection home_fs (set_ambiguous init ["A"; "B"; "C"]) "not-a-number-or-path"
    = (invalid_path_msg, set_ambiguous init ["A"; "B"; "C"]).
Proof.
  apply (proj2 (handle_path_selection_cases home_fs)); [reflexivity|].
  vm_compute. reflexivity.
Defined.

End DialogueProofs.

Module InvariantProofs.
Import Invariant.
Import Py FS Reasoner Fixtures.

Lemma startswith_app (s t p : string) :
  startswith s p = true -> startswith (s +:+ t) p = true.
Proof.
  revert s. induction p as [|a p IH]; intros s H; [destruct s; reflexivity|].
  destruct s as [|b s]; [discriminate|]. simpl in *.
  apply andb_prop in H as [H1 H2]. rewrite H1. simpl. by apply IH.
Qed.

Lemma normpath_abs (p : string) :
  startswith p "/" = true -> startswith (normpath p) "/" = true.
Proof.
  intros H. destruct p as [|c p]; [discriminate|].
  unfold normpath. simpl String.eqb at 1. rewrite H.
  destruct (startswith (String c p) "//" && negb (startswith (String c p) "///"));
    simpl; reflexivity.
Qed.

Lemma abspath_abs (F : fs) (p : string) :
  isabs (cwd F) = true -> startswith (abspath F p) "/" = true.
Proof.
  intros Hc. unfold abspath. apply normpath_abs.
  unfold isabs in *. destruct (startswith p "/") eqn:Hp; [exact Hp|].
  unfold path_join. rewrite Hp.
  destruct (String.eqb (cwd F) "" || _).
  - by apply startswith_app.
  - by apply startswith_app.
Qed.

Lemma fold_scan_origin (F : fs) (ws : list string) (acc : gset string) (x : string) :
  x ∈ fold_left (scan_word F) ws acc -> x ∈ acc \/ exists w, x = abspath F w.
Proof.
  revert acc. induction ws as [|w ws IH]; intros acc Hx; simpl in Hx; [by left|].
  destruct (IH _ Hx) as [Hin|Hw]; [|by right].
  unfold scan_word in Hin.
  repeat match type of Hin with
  | context [if ?b then _ else _] => destruct b
  end; try (by left); apply elem_of_union in Hin as [Hin|Hin];
    try apply elem_of_union in Hin as [Hin|Hin];
    try (apply elem_of_singleton in Hin; right; eexists; exact Hin);
    by left.
Qed.

Lemma search_some (m : string -> option string) (s r : string) :
  search m s = Some r -> exists s', m s' = Some r.
Proof.
  induction s as [|c s IH]; simpl; destruct (m _) eqn:E;
    intros H; try (injection H as <-; eauto); try discriminate; auto.
Qed.

Lemma match_unix_shape (s r : string) :
  match_unix s = Some r -> exists x, r = String "/" x.
Proof.
  unfold match_unix. destruct s as [|c rest]; [discriminate|].
  destruct (Ascii.eqb c "/") eqn:E; [|discriminate].
  destruct (contains _ "/"); [|discriminate]. intros H. injection H as <-. eauto.
Qed.

Lemma match_windows_shape (s r : string) :
  match_windows s = Some r -> exists l x, r = String l (String ":" x).
Proof.
  unfold match_windows. destruct s as [|l [|d [|b rest]]]; try discriminate.
  destruct (is_letter l && Ascii.eqb d ":" && Ascii.eqb b backslash) eqn:E;
    [|discriminate].
  apply andb_prop in E as [E _]. apply andb_prop in E as [_ E].
  apply Ascii.eqb_eq in E. subst d. intros H. injection H as <-. eauto.
Qed.

Lemma match_keyword_shape (kw s r : string) :
  match_keyword kw s = Some r ->
  exists c x, r = kw +:+ String c x /\ (c = backslash \/ c = "s"%char).
Proof.
  unfold match_keyword. destruct (startswith s kw); [|discriminate].
  destruct (substring _ _ s) as [|c rest]; [discriminate|].
  destruct (negb (not_bs_s c)) eqn:E; [|discriminate].
  intros H. injection H as <-. exists c, (take_while not_bs_s rest). split; [done|].
  unfold not_bs_s in E. rewrite negb_involutive in E.
  apply orb_prop in E as [E|E]; apply Ascii.eqb_eq in E; auto.
Qed.

Lemma replace_head (old new s : string) (c : ascii) :
  startswith (String c s) old = false ->
  replace old new (String c s) = String c (replace old new s).
Proof. intros H. unfold replace. cbn [String.length replace_fuel]. by rewrite H. Qed.

Ltac push_replace :=
  repeat (rewrite replace_head;
          [| first [reflexivity | cbn [startswith]; apply andb_false_r]]).

Lemma clean_path_not_ambiguous (s p : string) :
  pattern_extract s = Some p -> p <> "AMBIGUOUS".
Proof.
  unfold pattern_extract. destruct (first_match path_patterns s) as [m|] eqn:E;
    [|discriminate].
  intros H. injection H as <-. unfold path_patterns in E. simpl in E.
  repeat match type of E with
  | context [match search ?mt s with _ => _ end] => destruct (search mt s) eqn:?
  end; try discriminate; injection E as <-;
  repeat match goal with
  | Hs : search _ _ = Some _ |- _ => apply search_some in Hs as [? Hm]
  end.
  - apply match_unix_shape in Hm as [y ->]. unfold clean_path. push_replace. discriminate.
  - apply match_windows_shape in Hm as [l [y ->]]. unfold clean_path. push_replace.
    intros Hx. injection Hx as _ Hx. discriminate.
  - apply match_keyword_shape in Hm as [c [y [-> [-> | ->]]]];
      unfold clean_path; cbn [String.append]; push_replace; discriminate.
  - apply match_keyword_shape in Hm as [c [y [-> [-> | ->]]]];
      unfold clean_path; cbn [String.append]; push_replace; discriminate.
  - apply match_keyword_shape in Hm as [c [y [-> [-> | ->]]]];
      unfold clean_path; cbn [String.append]; push_replace; discriminate.
Qed.

Lemma extract_path_cases (F : fs) (st : state) (user_input : string) :
  isabs (cwd F) = true ->
  let '(r, st') := extract_path F st user_input in
  (r = Some "AMBIGUOUS" /\ ambiguous_paths st' <> [] /\
   waiting_for_path_selection st' = waiting_for_path_selection st) \/
  (r <> Some "AMBIGUOUS" /\ st' = st).
Proof.
  intros Hc. unfold extract_path.
  destruct (pattern_extract user_input) as [p|] eqn:Ep.
  - right. split; [|done]. intros Hp. injection Hp as ->.
    by apply (clean_path_not_ambiguous user_input "AMBIGUOUS").
  - destruct (elements (token_candidates F user_input)) as [|p [|q l]] eqn:El.
    + right. split; [discriminate|done].
    + right. split; [|done]. intros Hp. injection Hp as ->.
      assert (Hin : "AMBIGUOUS" ∈ token_candidates F user_input).
      { apply elem_of_elements. rewrite El. by left. }
      apply fold_scan_origin in Hin as [Hin|[w Hw]]; [set_solver|].
      pose proof (abspath_abs F w Hc) as Ha. rewrite <- Hw in Ha. discriminate.
    + left. simpl. split; [done|]. split; [discriminate|done].
Qed.

Lemma analyze_request_state (F : fs) (svc : services) (st : state) (user_input : string) :
  isabs (cwd F) = true ->
  let st' := snd (analyze_request F svc st user_input) in
  (ambiguous_paths st' = ambiguous_paths st /\
   waiting_for_path_selection st' = waiting_for_path_selection st) \/
  (ambiguous_paths st' <> [] /\ waiting_for_path_selection st' = true).
Proof.
  intros Hc. unfold analyze_request.
  pose proof (extract_path_cases F (set_original st user_input) user_input Hc) as Hx.
  destruct (extract_path F (set_original st user_input) user_input) as [pp st1].
  destruct Hx as [[-> [Hne _]] | [Hne ->]].
  - rewrite bool_decide_eq_true_2 by done. right. simpl. split; [exact Hne|done].
  - rewrite bool_decide_eq_false_2 by done. left.
    repeat match goal with
    | |- context [if ?b then _ else _] => destruct b
    | |- context [match ?o with Some _ => _ | None => _ end] => destruct o
    end; simpl; split; reflexivity.
Qed.

Lemma handle_path_selection_state (F : fs) (st : state) (user_input : string) :
  snd (handle_path_selection F st user_input) = st \/
  snd (handle_path_selection F st user_input) = clear_selection st.
Proof.
  unfold handle_path_selection.
  destruct (py_int (strip user_input)); [destruct (_ && _)|destruct (isdir F user_input)];
    simpl; auto.
Qed.

(** The invariant of the [Reasoner] attributes: the candidate list is
    non-empty exactly when a selection is awaited. *)
(** C6. [ambiguous_paths] is non-empty iff [waiting_for_path_selection]
    holds: true of a new [Reasoner], and kept by every call of
    [handle_path_selection] and of [analyze] (including the ambiguous
    branch and the re-analysis after a selection), on any filesystem whose
    working directory is absolute, as [os.getcwd()] always is. *)
Theorem selection_invariant (F : fs) (svc : services) :
  isabs (cwd F) = true ->
  selection_inv init /\
  (forall st user_input, selection_inv st ->
     selection_inv (snd (handle_path_selection F st user_input))) /\
  (forall st user_input, selection_inv st ->
     selection_inv (snd (analyze F svc st user_input))).
Proof.
  intros Hc.
  assert (Hclear : forall st, selection_inv (clear_selection st)).
  { intros st. unfold selection_inv. simpl. split; [done|discriminate]. }
  assert (Hhandle : forall st user_input, selection_inv st ->
     selection_inv (snd (handle_path_selection F st user_input))).
  { intros st u Hi. destruct (handle_path_selection_state F st u) as [-> | ->]; auto. }
  assert (Hreq : forall st user_input, selection_inv st ->
     selection_inv (snd (analyze_request F svc st user_input))).
  { intros st u Hi. unfold selection_inv.
    destruct (analyze_request_state F svc st u Hc) as [[-> ->] | [Ha ->]]; [done|].
    split; [done|intros _; exact Ha]. }
  split; [unfold selection_inv; simpl; split; [done|discriminate]|].
  split; [exact Hhandle|].
  intros st u Hi. unfold analyze.
  destruct (waiting_for_path_selection st); [|by apply Hreq].
  pose proof (Hhandle st u Hi) as Hh.
  destruct (handle_path_selection F st u) as [r st1]. simpl in Hh.
  destruct (startswith r "QUESTION:"); [exact Hh|].
  apply Hreq. exact Hh.
Qed.

Lemma selection_invariant_witness :
  isabs (cwd home_fs) = true /\
  selection_inv (snd (analyze home_fs fixed_services init "scan demo and x")).
Proof.
  split; [reflexivity|].
  pose proof (selection_invariant home_fs fixed_services eq_refl) as [H0 [_ H2]].
  apply H2. exact H0.
Defined.

End InvariantProofs.

Module ReportProofs.
Import Py Reasoner Labels Fixtures.

Lemma until_first_cons (next s : string) (c : ascii) :
  until_first next (String c s) =
  if startswith (String c s) next then EmptyString else String c (until_first next s).
Proof. reflexivity. Qed.

Lemma after_first_cons (label s : string) (c : ascii) :
  after_first label (String c s) =
  if startswith (String c s) label
  then Some (substring (String.length label) (String.length (String c s)) (String c s))
  else after_first label s.
Proof. reflexivity. Qed.

Lemma lstrip_app (a s : string) (c : ascii) :
  is_space c = false -> lstrip (a +:+ String c s) = lstrip a +:+ String c s.
Proof.
  intros Hc. induction a as [|d a IH]; simpl; [by rewrite Hc|].
  destruct (is_space d); [exact IH|reflexivity].
Qed.

Lemma lstrip_idem (s : string) : lstrip (lstrip s) = lstrip s.
Proof.
  induction s as [|c s IH]; simpl; [done|].
  destruct (is_space c) eqn:E; [exact IH|simpl; by rewrite E].
Qed.

Lemma strip_lstrip_app (a s : string) (c : ascii) :
  is_space c = false -> strip (lstrip a +:+ String c s) = strip (a +:+ String c s).
Proof.
  intros Hc. unfold strip. rewrite !lstrip_app by done. by rewrite lstrip_idem.
Qed.

Lemma substring_all (s : string) (m : nat) :
  String.length s <= m -> substring 0 m s = s.
Proof.
  revert m. induction s as [|c s IH]; intros m Hm; destruct m; simpl in *; try done; [lia|].
  rewrite IH by lia. reflexivity.
Qed.

Lemma append_cons (c : ascii) (s t : string) : String c s +:+ t = String c (s +:+ t).
Proof. reflexivity. Qed.

Lemma append_empty_r (s : string) : s +:+ "" = s.
Proof. induction s as [|c s IH]; [done|]. by rewrite append_cons, IH. Qed.

Lemma append_nil_l (s : string) : "" +:+ s = s.
Proof. reflexivity. Qed.

Lemma clash_startswith (u L s : string) :
  clash u L = true -> startswith (u +:+ s) L = false.
Proof.
  revert L. induction u as [|a u IH]; intros L H; [discriminate|].
  destruct L as [|b L]; [discriminate|]. rewrite append_cons. simpl in *.
  destruct (Ascii.eqb b a) eqn:E.
  - apply Ascii.eqb_eq in E. subst. rewrite Ascii.eqb_refl in H. simpl in H.
    by apply IH.
  - reflexivity.
Qed.

Lemma after_first_skip (lit L s : string) :
  skip_ok lit L = true -> after_first L (lit +:+ s) = after_first L s.
Proof.
  induction lit as [|c lit IH]; intros H; [done|].
  simpl in H. apply andb_prop in H as [H1 H2].
  rewrite append_cons, after_first_cons, <- append_cons, clash_startswith by done.
  by apply IH.
Qed.

Lemma until_first_skip (lit L s : string) :
  skip_ok lit L = true -> until_first L (lit +:+ s) = lit +:+ until_first L s.
Proof.
  induction lit as [|c lit IH]; intros H; [done|].
  simpl in H. apply andb_prop in H as [H1 H2].
  rewrite append_cons, until_first_cons, <- append_cons, clash_startswith by done.
  rewrite IH by done. reflexivity.
Qed.

Lemma startswith_prefix (L s : string) : startswith (L +:+ s) L = true.
Proof.
  induction L as [|c L IH]; [done|]. rewrite append_cons. simpl.
  by rewrite Ascii.eqb_refl.
Qed.

Lemma substring_prefix (L s : string) (m : nat) :
  substring (String.length L) m (L +:+ s) = substring 0 m s.
Proof. induction L as [|c L IH]; [done|]. rewrite append_cons. exact IH. Qed.

Lemma length_append (L s : string) :
  String.length (L +:+ s) = String.length L + String.length s.
Proof. induction L as [|c L IH]; [done|]. rewrite append_cons. simpl. by rewrite IH. Qed.

Lemma after_first_prefix (L s : string) : after_first L (L +:+ s) = Some s.
Proof.
  assert (Hunf : forall u, after_first L u =
    if startswith u L then Some (substring (String.length L) (String.length u) u)
    else match u with EmptyString => None | String _ u' => after_first L u' end)
    by (intros [|c u]; reflexivity).
  rewrite Hunf, startswith_prefix, length_append, substring_prefix, substring_all by lia.
  reflexivity.
Qed.

Lemma until_first_prefix (L s : string) : L <> "" -> until_first L (L +:+ s) = "".
Proof.
  intros HL. destruct L as [|c L]; [done|].
  rewrite append_cons, until_first_cons, <- append_cons, startswith_prefix. reflexivity.
Qed.

Lemma lstrip_app_lit (a u s : string) (c : ascii) (u' : string) :
  u = String c u' -> is_space c = false -> lstrip (a +:+ u +:+ s) = lstrip a +:+ u +:+ s.
Proof. intros -> Hc. rewrite append_cons. by apply lstrip_app. Qed.

Lemma strip_lstrip_app_lit (a u s : string) (c : ascii) (u' : string) :
  u = String c u' -> is_space c = false -> strip (lstrip a +:+ u +:+ s) = strip (a +:+ u +:+ s).
Proof. intros -> Hc. rewrite append_cons. by apply strip_lstrip_app. Qed.

Lemma strip_lstrip (s : string) : strip (lstrip s) = strip s.
Proof. unfold strip. by rewrite lstrip_idem. Qed.

Lemma contains_cons (c : ascii) (s p : string) :
  contains (String c s) p = startswith (String c s) p || contains s p.
Proof. reflexivity. Qed.

Lemma contains_startswith (s p : string) : startswith s p = true -> contains s p = true.
Proof. intros H. destruct s as [|c s]; cbn [contains]; rewrite H; reflexivity. Qed.

Lemma contains_suffix (x y p : string) : contains (x +:+ y) p = false -> contains y p = false.
Proof.
  induction x as [|c x IH]; [done|]. rewrite append_cons, contains_cons.
  intros H. apply orb_false_iff in H as [_ H]. exact (IH H).
Qed.

Lemma lstrip_suffix (s : string) : exists p, s = p +:+ lstrip s.
Proof.
  induction s as [|c s [p Hp]]; [exists ""; reflexivity|]. cbn [lstrip].
  destruct (is_space c); [|exists ""; reflexivity].
  exists (String c p). rewrite append_cons, <- Hp. reflexivity.
Qed.

Lemma contains_lstrip (s p : string) : contains s p = false -> contains (lstrip s) p = false.
Proof. destruct (lstrip_suffix s) as [x Hx]. rewrite Hx at 1. apply contains_suffix. Qed.

Lemma startswith_app_split (x w L : string) :
  startswith (x +:+ w) L = true ->
  startswith x L = true \/ exists L2, L = x +:+ L2 /\ startswith w L2 = true.
Proof.
  revert L. induction x as [|c x IH]; intros L H.
  - right. exists L. split; [reflexivity|exact H].
  - destruct L as [|d L]; [left; reflexivity|].
    rewrite append_cons in H. cbn [startswith] in H. apply andb_prop in H as [Hd H].
    apply Ascii.eqb_eq in Hd. subst d.
    destruct (IH L H) as [H'|(L2 & -> & H')].
    + left. cbn [startswith]. rewrite Ascii.eqb_refl. exact H'.
    + right. exists L2. split; [reflexivity|exact H'].
Qed.

(** An occurrence of [L] cannot start inside a non-empty [x] free of
    [L] when the next literal [M] clashes with the proper suffixes of [L]. *)
Lemma start_in_body (L M x z : string) :
  x <> "" -> contains x L = false -> suffix_clash M L = true ->
  startswith (x +:+ M +:+ z) L = false.
Proof.
  intros Hx Hc HM. destruct (startswith (x +:+ M +:+ z) L) eqn:E; [|reflexivity]. exfalso.
  apply startswith_app_split in E as [E|(L2 & -> & E)].
  - rewrite (contains_startswith _ _ E) in Hc. discriminate.
  - destruct (String.eqb_spec L2 "") as [->|HL2].
    + rewrite append_empty_r in Hc. rewrite (contains_startswith x x) in Hc; [discriminate|].
      pose proof (startswith_prefix x "") as P. rewrite append_empty_r in P. exact P.
    + unfold suffix_clash in HM. rewrite forallb_forall in HM.
      assert (Hi : In (String.length x) (seq 1 (String.length (x +:+ L2) - 1))).
      { apply in_seq. rewrite length_append.
        destruct x; [contradiction|]. destruct L2; [contradiction|]. cbn [String.length]. lia. }
      specialize (HM _ Hi).
      rewrite substring_prefix, substring_all in HM by (rewrite length_append; lia).
      rewrite (clash_startswith M L2 z HM) in E. discriminate.
Qed.

Lemma after_first_app (L x w : string) :
  (forall x1 x2, x = x1 +:+ x2 -> x2 <> "" -> startswith (x2 +:+ w) L = false) ->
  after_first L (x +:+ w) = after_first L w.
Proof.
  induction x as [|c x IH]; intros H; [reflexivity|].
  rewrite append_cons, after_first_cons, <- append_cons.
  rewrite (H "" (String c x)) by (reflexivity || discriminate). cbv beta iota.
  apply IH. intros x1 x2 -> Hx2. apply (H (String c x1) x2); [reflexivity|exact Hx2].
Qed.

Lemma until_first_app (L x w : string) :
  (forall x1 x2, x = x1 +:+ x2 -> x2 <> "" -> startswith (x2 +:+ w) L = false) ->
  until_first L (x +:+ w) = x +:+ until_first L w.
Proof.
  induction x as [|c x IH]; intros H; [reflexivity|].
  rewrite append_cons, until_first_cons, <- append_cons.
  rewrite (H "" (String c x)) by (reflexivity || discriminate). cbv beta iota.
  rewrite IH; [reflexivity|].
  intros x1 x2 -> Hx2. apply (H (String c x1) x2); [reflexivity|exact Hx2].
Qed.

Lemma after_first_body (L M x z : string) :
  contains x L = false -> suffix_clash M L = true ->
  after_first L (x +:+ M +:+ z) = after_first L (M +:+ z).
Proof.
  intros Hc HM. apply after_first_app. intros x1 x2 -> Hx2.
  exact (start_in_body L M x2 z Hx2 (contains_suffix _ _ _ Hc) HM).
Qed.

Lemma until_first_body (L M x z : string) :
  contains x L = false -> suffix_clash M L = true ->
  until_first L (x +:+ M +:+ z) = x +:+ until_first L (M +:+ z).
Proof.
  intros Hc HM. apply until_first_app. intros x1 x2 -> Hx2.
  exact (start_in_body L M x2 z Hx2 (contains_suffix _ _ _ Hc) HM).
Qed.

Lemma after_first_none (L s : string) : contains s L = false -> after_first L s = None.
Proof.
  induction s as [|c s IH]; intros H.
  - destruct L; [discriminate H|reflexivity].
  - rewrite contains_cons in H. apply orb_false_iff in H as [H1 H2].
    rewrite after_first_cons, H1. exact (IH H2).
Qed.

Lemma until_first_none (L s : string) : contains s L = false -> until_first L s = s.
Proof.
  induction s as [|c s IH]; intros H.
  - destruct L; [discriminate H|reflexivity].
  - rewrite contains_cons in H. apply orb_false_iff in H as [H1 H2].
    rewrite until_first_cons, H1. cbv beta iota. rewrite (IH H2). reflexivity.
Qed.

Lemma no_label_facts (s : string) :
  no_label s = true ->
  contains s "ASSESSMENT:" = false /\ contains s "RISK_LEVEL:" = false /\
  contains s "RECOMMENDATIONS:" = false /\ contains s "QUESTIONS:" = false.
Proof.
  intros H. unfold no_label in H. cbn [forallb labels] in H.
  rewrite !andb_true_iff, !negb_true_iff in H. tauto.
Qed.

Ltac not_lit x := lazymatch x with String _ _ => fail | EmptyString => fail | _ => idtac end.

Ltac body_side := first [assumption | apply contains_lstrip; assumption].

(** Walks the section extraction through a text of labels and bodies. *)
Ltac walk_sections :=
  repeat (match goal with
  | |- context [after_first ?L (?L +:+ ?s)] => rewrite (after_first_prefix L s)
  | |- context [until_first ?L (?L +:+ ?s)] => rewrite (until_first_prefix L s) by discriminate
  | |- context [lstrip (?x +:+ ?u +:+ ?s)] =>
      rewrite (lstrip_app_lit x u s _ _ eq_refl) by reflexivity
  | |- context [after_first ?L (?x +:+ ?M +:+ ?z)] =>
      not_lit x; rewrite (after_first_body L M x z) by first [body_side | reflexivity]
  | |- context [until_first ?L (?x +:+ ?M +:+ ?z)] =>
      not_lit x; rewrite (until_first_body L M x z) by first [body_side | reflexivity]
  | |- context [after_first ?L (?x +:+ ?s)] => rewrite (after_first_skip x L s) by reflexivity
  | |- context [until_first ?L (?x +:+ ?s)] => rewrite (until_first_skip x L s) by reflexivity
  | |- context [after_first ?L ?x] => not_lit x; rewrite (after_first_none L x) by body_side
  | |- context [until_first ?L ?x] => not_lit x; rewrite (until_first_none L x) by body_side
  end; cbv beta iota).

(** C4 (amended). For a response made of a preamble and the sections
    [ASSESSMENT:], [RECOMMENDATIONS:] and [QUESTIONS:] in this order, no
    label occurring in the preamble or in a section body: without a
    [RISK_LEVEL:] label, [risk_level] is [Unknown] and the
    recommendations and questions are their stripped sections, as with the
    label present; but the assessment, whose lookahead only stops at
    [RISK_LEVEL:], runs to the end of the text and takes in the
    recommendations and questions sections. *)
Theorem report_without_risk_label (pre a k r q : string) :
  no_label pre = true -> no_label a = true -> no_label k = true ->
  no_label r = true -> no_label q = true ->
  extract_report (text_without_risk pre a r q) =
    mkReport (strip (a +:+ "RECOMMENDATIONS:" +:+ r +:+ "QUESTIONS:" +:+ q))
             "Unknown" (strip r) (strip q) /\
  extract_report (text_with_risk pre a k r q) =
    mkReport (strip a) (strip k) (strip r) (strip q).
Proof.
  intros Hp Ha Hk Hr Hq.
  destruct (no_label_facts pre Hp) as (Hp1 & Hp2 & Hp3 & Hp4).
  destruct (no_label_facts a Ha) as (Ha1 & Ha2 & Ha3 & Ha4).
  destruct (no_label_facts k Hk) as (Hk1 & Hk2 & Hk3 & Hk4).
  destruct (no_label_facts r Hr) as (Hr1 & Hr2 & Hr3 & Hr4).
  destruct (no_label_facts q Hq) as (Hq1 & Hq2 & Hq3 & Hq4).
  unfold extract_report, text_without_risk, text_with_risk, section_to,
    section_to_end, field_or.
  walk_sections.
  rewrite !append_empty_r, !strip_lstrip.
  rewrite (strip_lstrip_app_lit _ _ _ _ _ eq_refl) by reflexivity.
  split; reflexivity.
Qed.

Lemma report_without_risk_label_witness :
  extract_report (text_without_risk ("Security review of the project:" +:+ nl)
                    (" Passwords use MD5." +:+ nl) (" Switch to SHA-256." +:+ nl) " null") =
    mkReport (strip ((" Passwords use MD5." +:+ nl) +:+ "RECOMMENDATIONS:" +:+
                     (" Switch to SHA-256." +:+ nl) +:+ "QUESTIONS:" +:+ " null"))
             "Unknown" "Switch to SHA-256." "null".
Proof.
  destruct (report_without_risk_label ("Security review of the project:" +:+ nl)
              (" Passwords use MD5." +:+ nl) " High" (" Switch to SHA-256." +:+ nl) " null"
              eq_refl eq_refl eq_refl eq_refl eq_refl) as [H _].
  rewrite H. vm_compute. reflexivity.
Defined.

(** C4 (counterexample). Without [RISK_LEVEL:], the assessment of
    [ASSESSMENT: ok / RECOMMENDATIONS: patch X / QUESTIONS: null] is not
    [ok]: it runs on through the two other sections. *)
Lemma report_assessment_overruns :
  assessment (extract_report ("ASSESSMENT: ok" +:+ nl +:+ "RECOMMENDATIONS: patch X" +:+
                              nl +:+ "QUESTIONS: null"))
    = "ok" +:+ nl +:+ "RECOMMENDATIONS: patch X" +:+ nl +:+ "QUESTIONS: null" /\
  assessment (extract_report sample_decision) = "ok".
Proof. split; vm_compute; reflexivity. Qed.

End ReportProofs.

Module FallbackProofs.
Import Py ProjectManager Results.

Lemma run_with_fallback_rejected (rs : list dict) (failure : dict) :
  Forall (fun x => accepts x = false) rs ->
  run_with_fallback rs failure = (failure, length rs).
Proof.
  induction 1 as [|x rs Hx _ IH]; [done|]. simpl. by rewrite Hx, IH.
Qed.

(** The fallback loop calls the strategies in order and stops at the
    first result that is a non-empty dict whose [error] value is missing
    or falsy, after calling exactly the strategies up to it; when no result
    qualifies, all strategies are called and the failure dict, with a
    non-empty [error] and [suggested_fix], is returned. In the [run_scan]
    bundle the Semgrep slot is that result and every other slot is its own
    probe's result. *)
Theorem fallback_first_accepted :
  (forall (pre post : list dict) (r failure : dict),
     Forall (fun x => accepts x = false) pre -> accepts r = true ->
     run_with_fallback (pre ++ r :: post) failure = (r, S (length pre))) /\
  (forall (rs : list dict) (failure : dict),
     Forall (fun x => accepts x = false) rs ->
     run_with_fallback rs failure = (failure, length rs)) /\
  (forall failure, failure = semgrep_failure \/ failure = osv_failure ->
     truthy (get failure "error") = true /\ truthy (get failure "suggested_fix") = true) /\
  (forall p : probes,
     let '(b, s, a) := semgrep_results p in
     get (run_scan p) "semgrep_scan" = PDict (run_semgrep_with_fallback b s a) /\
     get (run_scan p) "languages" = languages p /\
     get (run_scan p) "structure" = structure p /\
     get (run_scan p) "file_contents" = file_contents p /\
     get (run_scan p) "potential_issues" = potential_issues p /\
     get (run_scan p) "detected_frameworks" = detect_frameworks p (file_contents p)).
Proof.
  split; [|split; [exact run_with_fallback_rejected|split]].
  - intros pre post r failure Hpre Hr. induction Hpre as [|x pre Hx _ IH]; simpl.
    + by rewrite Hr.
    + by rewrite Hx, IH.
  - intros failure [-> | ->]; split; reflexivity.
  - intros p. unfold run_scan. destruct (semgrep_results p) as [[b s] a].
    repeat split.
Qed.

Lemma fallback_first_accepted_witness :
  run_with_fallback [error_dict; ok_dict; error_dict] semgrep_failure = (ok_dict, 2) /\
  run_semgrep_with_fallback error_dict error_dict error_dict = semgrep_failure.
Proof.
  split.
  - apply (proj1 fallback_first_accepted [error_dict] [error_dict] ok_dict semgrep_failure).
    + constructor; [reflexivity|constructor].
    + reflexivity.
  - unfold run_semgrep_with_fallback.
    rewrite (proj1 (proj2 fallback_first_accepted)); [reflexivity|].
    repeat constructor.
Defined.

(** C5 (code bug). When the basic Semgrep invocation, or the standard
    OSV-Scanner invocation, exits with a non-zero code and an empty
    [stderr], its result [{error: '', returncode: rc}] has an [error] key;
    yet the fallback loop accepts it, returns it after one call and calls
    no later strategy, whatever the later strategies would return. *)
Theorem fallback_returns_empty_error (rc : Z) (out security auto : dict) :
  rc <> 0%Z ->
  has_key (run_semgrep_basic rc out "") "error" = true /\
  run_with_fallback [run_semgrep_basic rc out ""; security; auto] semgrep_failure =
    ([("error", PStr ""); ("returncode", PInt rc)], 1) /\
  has_key (run_osv_audit_standard rc out "") "error" = true /\
  run_with_fallback [run_osv_audit_standard rc out ""; security; auto] osv_failure =
    ([("error", PStr ""); ("returncode", PInt rc)], 1).
Proof.
  intros Hrc. unfold run_semgrep_basic, run_osv_audit_standard.
  rewrite (proj2 (Z.eqb_neq rc 0) Hrc). repeat split; reflexivity.
Qed.

Lemma fallback_returns_empty_error_witness :
  run_semgrep_with_fallback (run_semgrep_basic 1 ok_dict "")
    (run_semgrep_security 0 ok_dict "") (run_semgrep_security 0 ok_dict "") =
    [("error", PStr ""); ("returncode", PInt 1)] /\
  run_osv_audit_with_fallback (run_osv_audit_standard 2 ok_dict "")
    (run_osv_audit_recursive 0 ok_dict "") (run_osv_audit_recursive 0 ok_dict "") =
    [("error", PStr ""); ("returncode", PInt 2)].
Proof.
  unfold run_semgrep_with_fallback, run_osv_audit_with_fallback. split.
  - rewrite (proj1 (proj2 (fallback_returns_empty_error 1 ok_dict
      (run_semgrep_security 0 ok_dict "") (run_semgrep_security 0 ok_dict "") ltac:(lia)))).
    reflexivity.
  - rewrite (proj2 (proj2 (proj2 (fallback_returns_empty_error 2 ok_dict
      (run_osv_audit_recursive 0 ok_dict "") (run_osv_audit_recursive 0 ok_dict "") ltac:(lia))))).
    reflexivity.
Defined.

End FallbackProofs.

Module DedupProofs.
Import Py Reasoner DedupSpec.

Lemma dedup_lines_keep_first (lines prev : list string) (seen : gset string) :
  (forall x, x ∈ seen <-> x <> "" /\ x ∈ map strip prev) ->
  dedup_lines lines seen = keep_first prev lines.
Proof.
  revert prev seen. induction lines as [|l lines IH]; intros prev seen Hinv; [done|].
  simpl. destruct (String.eqb_spec (strip l) "") as [He|Hne]; simpl.
  - apply IH. intros x. rewrite Hinv, map_app, elem_of_app; cbn [map]; rewrite list_elem_of_singleton.
    naive_solver.
  - assert (Hiff : strip l ∈ seen <-> strip l ∈ map strip prev) by (rewrite Hinv; tauto).
    destruct (decide (strip l ∈ map strip prev)) as [Hm|Hm].
    + rewrite (bool_decide_eq_false_2 (strip l ∉ seen)) by (intros Hn; apply Hn, Hiff, Hm).
      rewrite bool_decide_eq_false_2 by (intros Hn; apply Hn, Hm).
      apply IH. intros x. rewrite Hinv, map_app, elem_of_app; cbn [map]; rewrite list_elem_of_singleton.
      naive_solver.
    + rewrite (bool_decide_eq_true_2 (strip l ∉ seen)) by (rewrite Hiff; exact Hm).
      rewrite bool_decide_eq_true_2 by exact Hm.
      f_equal. apply IH. intros x.
      rewrite elem_of_union, elem_of_singleton, Hinv, map_app, elem_of_app;
        cbn [map]; rewrite list_elem_of_singleton.
      naive_solver.
Qed.

(** C8 (amended). [deduplicate_recommendations] keeps a line when its
    stripped form is non-empty and differs from the stripped forms of all
    earlier lines, and keeps it as written; the kept lines stay in order.
    So blank lines and lines repeating an earlier one up to surrounding
    whitespace are dropped, and the example [a b a (blank) b] gives [a b]. *)
Theorem deduplicate_by_stripped_line :
  (forall text : string,
     deduplicate_recommendations text =
       if String.eqb text "" then ""
       else join nl (keep_first [] (split_on (chr 10) text))) /\
  deduplicate_recommendations ("a" +:+ nl +:+ "b" +:+ nl +:+ "a" +:+ nl +:+ nl +:+ "b")
    = "a" +:+ nl +:+ "b".
Proof.
  split.
  - intros text. unfold deduplicate_recommendations.
    destruct (String.eqb_spec text "") as [->|_]; [done|].
    f_equal. apply dedup_lines_keep_first. intros x. split.
    + intros Hx. set_solver.
    + intros [_ Hx]. inversion Hx.
  - vm_compute. reflexivity.
Qed.

(** C8 (counterexample). Two lines that differ only by leading whitespace
    are not both kept: the second is dropped as a repeat. *)
Lemma deduplicate_drops_whitespace_variant :
  deduplicate_recommendations ("a" +:+ nl +:+ " a") = "a".
Proof. vm_compute. reflexivity. Qed.

End DedupProofs.

Module RequirementsProofs.
Import Py ProjectManager.

Lemma startswith_clash (s p q : string) (a b : ascii) :
  startswith s (String a p) = true -> a <> b -> startswith s (String b q) = false.
Proof.
  destruct s as [|c s]; [discriminate|]. simpl. intros H Hab.
  destruct (Ascii.eqb_spec a c), (Ascii.eqb_spec b c); simpl in *; congruence.
Qed.

Ltac pin_case :=
  match goal with
  | Hs : startswith ?l _ = true |- _ =>
      unfold version_updates; cbn [List.find fst];
      cbv [String.append] in Hs |- *;
      assert (String.eqb l "" = false)
        by (destruct l; [simpl in Hs; discriminate | reflexivity]);
      match goal with He : String.eqb l "" = false |- _ => rewrite He end;
      repeat first [ rewrite Hs
                   | rewrite (startswith_clash _ _ _ _ _ Hs) by discriminate ];
      reflexivity
  end.

(** C9 (amended). [generate_requirements_fix] returns the placeholder
    comment for empty text; otherwise it maps every line through
    [fix_line], which first strips the line: a blank or comment line becomes
    its stripped form, a line whose stripped form starts with [pkg==] for a
    package of the update mapping becomes [pkg] followed by its new version,
    and any other line becomes its stripped form. *)
Theorem requirements_fix_strips_lines :
  generate_requirements_fix "" = "# No requirements.txt content available for fixing" /\
  (forall content, content <> "" ->
     generate_requirements_fix content = join nl (map fix_line (split_on (chr 10) content))) /\
  (forall line, strip line = "" \/ startswith (strip line) "#" = true ->
     fix_line line = strip line) /\
  (forall line pkg v, (pkg, v) ∈ version_updates ->
     startswith (strip line) (pkg +:+ "==") = true ->
     fix_line line = pkg +:+ v) /\
  (forall line, (forall pv, pv ∈ version_updates ->
                   startswith (strip line) (fst pv +:+ "==") = false) ->
     fix_line line = strip line).
Proof.
  split; [reflexivity|split; [|split; [|split]]].
  - intros content Hc. unfold generate_requirements_fix.
    destruct (String.eqb_spec content "") as [E|_]; [contradiction|reflexivity].
  - intros line Hl. unfold fix_line.
    destruct Hl as [-> | ->]; [reflexivity|]. by rewrite orb_true_r.
  - intros line pkg v Hm Hs. unfold fix_line.
    remember (strip line) as l eqn:Hl; clear Hl.
    apply list_elem_of_In in Hm. simpl in Hm.
    destruct Hm as [E|[E|[E|[E|[E|[]]]]]]; inversion E; subst; pin_case.
  - intros line Hn. unfold fix_line.
    destruct (_ || _); [reflexivity|].
    assert (Hf : forall xs, (forall pv, In pv xs -> pv ∈ version_updates) ->
              List.find (fun pv => startswith (strip line) (fst pv +:+ "==")) xs = None).
    { induction xs as [|x xs IH]; intros Hin; [reflexivity|]. simpl.
      rewrite Hn by (apply Hin; left; reflexivity). apply IH. intros pv Hpv.
      apply Hin. right. exact Hpv. }
    rewrite Hf; [reflexivity|]. intros pv Hpv. apply list_elem_of_In, Hpv.
Qed.

Lemma requirements_fix_strips_lines_witness :
  "x" +:+ "" <> "" /\
  fix_line " flask==1.0 " = "flask>=2.3.3" /\
  fix_line "  # pinned" = "# pinned".
Proof.
  split; [discriminate|split].
  - apply (proj1 (proj2 (proj2 (proj2 requirements_fix_strips_lines)))
             " flask==1.0 " "flask" ">=2.3.3").
    + apply list_elem_of_In. simpl. tauto.
    + reflexivity.
  - apply (proj1 (proj2 (proj2 requirements_fix_strips_lines))). right. reflexivity.
Defined.

(** C9 (counterexample). A comment line and an unrecognised line are not
    left untouched: their surrounding whitespace is removed. *)
Lemma requirements_fix_changes_comment :
  generate_requirements_fix ("  # pinned" +:+ nl +:+ " foo ") = "# pinned" +:+ nl +:+ "foo".
Proof. vm_compute. reflexivity. Qed.

End RequirementsProofs.

Module LanguageProofs.
Import Py Probes PyDict.

Lemma dict_get_set {A} (d : list (string * A)) (k l : string) (v : A) :
  dict_get (dict_set d k v) l = if String.eqb k l then Some v else dict_get d l.
Proof.
  induction d as [|[k' v'] d IH]; simpl; [done|].
  destruct (String.eqb_spec k' k) as [->|Hne]; simpl.
  - destruct (String.eqb k l); reflexivity.
  - rewrite IH. destruct (String.eqb_spec k' l) as [->|]; [|done].
    destruct (String.eqb_spec k l); congruence.
Qed.

Lemma sum_dict_incr (d : list (string * nat)) (k : string) :
  list_sum (map snd (dict_set d k (default 0 (dict_get d k) + 1))) =
  S (list_sum (map snd d)).
Proof.
  induction d as [|[k' v'] d IH]; simpl; [done|].
  destruct (String.eqb_spec k' k) as [->|]; simpl; [lia|]. rewrite IH. lia.
Qed.

Lemma count_files_spec (fs_ : list string) (c : list (string * nat)) (n : nat) :
  let '(c', n') := fold_left count_file fs_ (c, n) in
  n' = n + length (List.filter known fs_) /\
  list_sum (map snd c') = list_sum (map snd c) + length (List.filter known fs_) /\
  forall L, default 0 (dict_get c' L) =
    default 0 (dict_get c L) +
    length (List.filter (fun f => bool_decide (dict_get language_extensions (splitext_ext f) = Some L)) fs_).
Proof.
  revert c n. induction fs_ as [|f fs_ IH]; intros c n; cbn [fold_left List.filter length].
  - simpl. split; [lia|split; [lia|intros; lia]].
  - destruct (dict_get language_extensions (splitext_ext f)) as [lang|] eqn:E.
    + assert (Hc : count_file (c, n) f =
                   (dict_set c lang (default 0 (dict_get c lang) + 1), S n))
        by (unfold count_file; rewrite E; reflexivity).
      assert (Hk : known f = true)
        by (unfold known; rewrite E; apply bool_decide_eq_true_2; eauto).
      rewrite Hc, Hk.
      specialize (IH (dict_set c lang (default 0 (dict_get c lang) + 1)) (S n)).
      destruct (fold_left count_file fs_ _) as [c' n'].
      destruct IH as (H1 & H2 & H3). simpl length.
      split; [lia|split].
      * rewrite H2, sum_dict_incr. lia.
      * intros L. rewrite H3, dict_get_set.
        destruct (String.eqb_spec lang L) as [->|Hne].
        -- rewrite bool_decide_eq_true_2 by reflexivity. simpl. lia.
        -- rewrite bool_decide_eq_false_2 by congruence. reflexivity.
    + assert (Hc : count_file (c, n) f = (c, n))
        by (unfold count_file; rewrite E; reflexivity).
      assert (Hk : known f = false)
        by (unfold known; rewrite E; apply bool_decide_eq_false_2; intros [? ?]; discriminate).
      rewrite Hc, Hk.
      specialize (IH c n). destruct (fold_left count_file fs_ _) as [c' n'].
      destruct IH as (H1 & H2 & H3). split; [exact H1|split; [exact H2|]].
      intros L. rewrite H3, bool_decide_eq_false_2 by discriminate. reflexivity.
Qed.

Lemma detect_languages_flat (walk : list walk_entry) acc :
  fold_left (fun acc e => fold_left count_file (files e) acc) walk acc =
  fold_left count_file (flat_map files walk) acc.
Proof.
  revert acc. induction walk as [|e walk IH]; intros acc; simpl; [done|].
  rewrite fold_left_app. apply IH.
Qed.

(** [detect_languages] counts, over all the files the walk lists, those
    whose [splitext] extension is in [language_extensions]: [total_files]
    is their number, it is the sum of the per-language counts, and the count
    of a language (0 when absent) is the number of files whose extension
    maps to it. *)
Theorem detect_languages_counts (walk : list walk_entry) :
  let '(language_counts, total_files) := detect_languages walk in
  let all_files := flat_map files walk in
  total_files = length (List.filter known all_files) /\
  list_sum (map snd language_counts) = total_files /\
  forall L, default 0 (dict_get language_counts L) =
    length (List.filter (fun f => bool_decide (dict_get language_extensions (splitext_ext f) = Some L))
                   all_files).
Proof.
  unfold detect_languages. rewrite detect_languages_flat.
  pose proof (count_files_spec (flat_map files walk) [] 0) as H.
  destruct (fold_left count_file _ _) as [c n]. simpl in H.
  destruct H as (H1 & H2 & H3). split; [exact H1|split; [lia|exact H3]].
Qed.

End LanguageProofs.

Module FrameworkProofs.
Import Py ProjectManager Probes.

Lemma lower_char_idem (c : ascii) : lower_char (lower_char c) = lower_char c.
Proof. destruct c as [[] [] [] [] [] [] [] []]; vm_compute; reflexivity. Qed.

Lemma lower_idem (s : string) : lower (lower s) = lower s.
Proof. induction s as [|c s IH]; simpl; [done|]. by rewrite lower_char_idem, IH. Qed.

Lemma frameworks_fold_union (fis : list (string * list string)) (content : string)
  (D : gset string) :
  fold_left (fun d fi =>
     if existsb (fun indicator => contains (lower content) (lower indicator)) (snd fi)
     then {[ fst fi ]} ∪ d else d) fis D =
  fold_left (fun d fi =>
     if existsb (fun indicator => contains (lower content) (lower indicator)) (snd fi)
     then {[ fst fi ]} ∪ d else d) fis ∅ ∪ D.
Proof.
  revert D. induction fis as [|fi fis IH]; intros D; cbn [fold_left].
  - apply leibniz_equiv. set_solver.
  - destruct (existsb _ _).
    + rewrite IH, (IH ({[fst fi]} ∪ ∅)). apply leibniz_equiv. set_solver.
    + rewrite IH, (IH ∅). apply leibniz_equiv. set_solver.
Qed.

Lemma frameworks_in_union (D : gset string) (content : string) :
  frameworks_in D content = frameworks_in ∅ content ∪ D.
Proof. apply frameworks_fold_union. Qed.

Lemma detect_fold_union (d : dict) (D : gset string) :
  fold_left (fun detected kv =>
     match snd kv with PStr content => frameworks_in detected content | _ => detected end)
    d D =
  detect_frameworks d ∪ D.
Proof.
  unfold detect_frameworks. revert D.
  induction d as [|[k v] d IH]; intros D; cbn [fold_left snd].
  - apply leibniz_equiv. set_solver.
  - destruct v as [s| | | | |];
      try (rewrite IH, (IH ∅); apply leibniz_equiv; set_solver).
    rewrite IH, (IH (frameworks_in ∅ s)), (frameworks_in_union D).
    apply leibniz_equiv. set_solver.
Qed.

Lemma frameworks_in_lower (D : gset string) (s : string) :
  frameworks_in D (lower s) = frameworks_in D s.
Proof.
  unfold frameworks_in. rewrite lower_idem. reflexivity.
Qed.

(** [detect_frameworks] looks at each file on its own and ignores letter
    case: the frameworks of two concatenated content dicts are the union
    of the frameworks of each, and lower-casing every file content changes
    nothing. *)
Theorem detect_frameworks_union_lower :
  (forall d1 d2 : dict,
     detect_frameworks (d1 ++ d2)%list = detect_frameworks d1 ∪ detect_frameworks d2) /\
  (forall d : dict,
     detect_frameworks
       (map (fun kv => (fst kv, match snd kv with PStr s => PStr (lower s) | v => v end)) d)
     = detect_frameworks d).
Proof.
  split.
  - intros d1 d2. unfold detect_frameworks at 1. rewrite fold_left_app.
    fold (detect_frameworks d1). rewrite detect_fold_union.
    apply leibniz_equiv. set_solver.
  - intros d. unfold detect_frameworks. generalize (∅ : gset string) as D.
    induction d as [|[k v] d IH]; intros D; cbn [fold_left map fst snd]; [done|].
    destruct v as [s| | | | |]; rewrite IH; try reflexivity.
    rewrite frameworks_in_lower. reflexivity.
Qed.

End FrameworkProofs.

Module StringFacts.
Import Py.

Lemma sf_app_cons (c : ascii) (s t : string) : String c s +:+ t = String c (s +:+ t).
Proof. reflexivity. Qed.

Lemma sf_app_nil_r (s : string) : s +:+ "" = s.
Proof. induction s as [|c s IH]; [done|]. rewrite sf_app_cons, IH. reflexivity. Qed.

Lemma sf_app_assoc (a b c : string) : a +:+ (b +:+ c) = (a +:+ b) +:+ c.
Proof. induction a as [|x a IH]; [done|]. rewrite !sf_app_cons, IH. reflexivity. Qed.

Lemma sf_app_inj (s a b : string) : s +:+ a = s +:+ b -> a = b.
Proof.
  induction s as [|c s IH]; [done|]. rewrite !sf_app_cons. intros H.
  injection H. exact IH.
Qed.

Lemma sf_startswith_iff (s p : string) : startswith s p = true <-> exists y, s = p +:+ y.
Proof.
  revert s. induction p as [|a p IH]; intros s.
  - split; [intros _; exists s; reflexivity|intros _; destruct s; reflexivity].
  - destruct s as [|b s]; simpl.
    + split; [discriminate|intros [y Hy]; discriminate].
    + rewrite andb_true_iff, IH. split.
      * intros [Hab [y ->]]. apply Ascii.eqb_eq in Hab. subst. exists y. reflexivity.
      * intros [y Hy]. injection Hy as -> ->. rewrite Ascii.eqb_refl. eauto.
Qed.

Lemma sf_contains_iff (s p : string) :
  contains s p = true <-> exists x y, s = x +:+ p +:+ y.
Proof.
  induction s as [|c s IH].
  - simpl. rewrite orb_false_r, sf_startswith_iff. split.
    + intros [y Hy]. exists "", y. exact Hy.
    + intros [x [y Hy]]. destruct x; [exists y; exact Hy|discriminate].
  - simpl. rewrite orb_true_iff, sf_startswith_iff, IH. split.
    + intros [[y Hy]|[x [y Hy]]].
      * exists "", y. exact Hy.
      * exists (String c x), y. rewrite Hy. reflexivity.
    + intros [x [y Hy]]. destruct x as [|d x].
      * left. exists y. exact Hy.
      * right. rewrite sf_app_cons in Hy. injection Hy as -> Hy. eauto.
Qed.

Lemma sf_contains_trans (s p r : string) :
  contains s p = true -> contains p r = true -> contains s r = true.
Proof.
  rewrite !sf_contains_iff. intros [x [y ->]] [u [v ->]].
  exists (x +:+ u), (v +:+ y). rewrite <- !sf_app_assoc. reflexivity.
Qed.

Lemma sf_split_nonempty (c : ascii) (s : string) : split_on c s <> [].
Proof.
  induction s as [|d s IH]; simpl; [discriminate|].
  destruct (Ascii.eqb d c); [discriminate|]. destruct (split_on c s); discriminate.
Qed.

Lemma sf_split_app_sep (c : ascii) (a b : string) :
  split_on c (a +:+ String c b) = (split_on c a ++ split_on c b)%list.
Proof.
  induction a as [|d a IH].
  - simpl. rewrite Ascii.eqb_refl. reflexivity.
  - rewrite sf_app_cons. simpl. rewrite IH.
    destruct (Ascii.eqb d c); [reflexivity|].
    pose proof (sf_split_nonempty c a) as Hn.
    destruct (split_on c a); [contradiction|reflexivity].
Qed.

Lemma sf_split_no_sep (c : ascii) (s : string) :
  contains s (str1 c) = false -> split_on c s = [s].
Proof.
  induction s as [|d s IH]; [reflexivity|]. simpl. intros H.
  apply orb_false_iff in H as [H1 H2]. rewrite andb_true_r in H1.
  rewrite Ascii.eqb_sym, H1, IH by exact H2. reflexivity.
Qed.

Lemma sf_substring_length (n : nat) (s : string) : String.length (substring 0 n s) <= n.
Proof.
  revert s. induction n as [|n IH]; intros s; [destruct s; simpl; lia|].
  destruct s as [|c s]; simpl; [lia|]. specialize (IH s). lia.
Qed.

End StringFacts.

Module StructureProofs.
Import Py FS Probes StringFacts.

Lemma skipped_under_base (base rest : string) :
  existsb skipped_part (split_on "/" base) = true ->
  existsb skipped_part (split_on "/" (base +:+ "/" +:+ rest)) = true.
Proof.
  intros H. change ("/" +:+ rest) with (String "/" rest).
  rewrite sf_split_app_sep, existsb_app, H. reflexivity.
Qed.

(** When the base path has a component that [get_file_structure] skips
    (one starting with a dot, such as [.] itself, or [venv] /
    [node_modules]), and every root of the walk is the base path or lies
    below it, the structure lists no file and no directory at all. *)
Theorem get_file_structure_hidden_base (base : string) (walk : list walk_entry) :
  existsb skipped_part (split_on "/" base) = true ->
  Forall (fun e => root e = base \/ exists rest, root e = base +:+ "/" +:+ rest) walk ->
  get_file_structure walk = ([], []).
Proof.
  intros Hb Hw. unfold get_file_structure.
  generalize (@nil string, @nil string) as acc.
  induction Hw as [|e walk He _ IH]; intros [fs_ ds]; [reflexivity|].
  cbn [fold_left].
  assert (Hs : existsb skipped_part (split_on "/" (root e)) = true).
  { destruct He as [-> | [rest ->]]; [exact Hb|apply skipped_under_base, Hb]. }
  rewrite Hs. apply IH.
Qed.

Lemma get_file_structure_hidden_base_witness :
  get_file_structure [mkWalk "." ["src"] ["main.py"]; mkWalk "./src" [] ["app.py"]] = ([], []).
Proof.
  apply (get_file_structure_hidden_base ".").
  - reflexivity.
  - constructor; [left; reflexivity|].
    constructor; [right; exists "src"; reflexivity|constructor].
Defined.

End StructureProofs.

Module IssueProofs.
Import Py FS Probes StringFacts.

(** [_identify_potential_issues] reports [World-writable file: p] exactly
    for the walked files [p] whose [st_mode] has all nine permission bits
    set ([st_mode & 0o777 == 0o777]); a world-writable file with another
    permission bit clear, such as mode [0o666], is not reported. *)
Theorem world_writable_reported (stat_mode : string -> option Z)
  (walk : list walk_entry) (p : string) :
  In ("World-writable file: " +:+ p) (identify_potential_issues stat_mode walk) <->
  exists e f m, In e walk /\ In f (files e) /\ p = path_join (root e) f /\
                stat_mode p = Some m /\ Z.land m 511 = 511%Z.
Proof.
  unfold identify_potential_issues. rewrite in_flat_map. split.
  - intros [e [He Hin]]. rewrite in_flat_map in Hin. destruct Hin as [f [Hf Hin]].
    unfold file_issues in Hin. apply in_app_or in Hin as [Hin|Hin].
    + destruct (bool_decide _); [|contradiction].
      destruct Hin as [Heq|[]]. cbv [String.append] in Heq. discriminate Heq.
    + destruct (stat_mode (path_join (root e) f)) as [m|] eqn:Es; [|contradiction].
      destruct (Z.eqb_spec (Z.land m 511) 511) as [Hm|]; [|contradiction].
      destruct Hin as [Heq|[]]. apply sf_app_inj in Heq. subst p.
      exists e, f, m. auto.
  - intros (e & f & m & He & Hf & -> & Hs & Hm). exists e. split; [exact He|].
    rewrite in_flat_map. exists f. split; [exact Hf|].
    unfold file_issues. apply in_or_app. right. rewrite Hs.
    rewrite (proj2 (Z.eqb_eq _ _) Hm). left. reflexivity.
Qed.

End IssueProofs.

Module DependencyProofs.
Import Py FS ProjectManager Probes StringFacts.

Lemma outdated_pinned (content i : string) :
  In i outdated_indicators -> contains content i = true -> contains content "==" = true.
Proof.
  intros Hi Hc. apply (sf_contains_trans _ i); [exact Hc|].
  simpl in Hi. destruct Hi as [<-|[<-|[<-|[<-|[]]]]]; reflexivity.
Qed.

(** [_manual_dependency_checks] reports [Outdated package detected: i]
    exactly when [requirements.txt] exists and reads, and its text contains
    the outdated pin [i] of [outdated_indicators]; since every such pin
    contains [==], an outdated-package report never comes together with
    the report that the file might not pin versions. *)
Theorem manual_checks_outdated (D : files_view) (base i : string) :
  let checks := manual_dependency_checks D base in
  let p := path_join base "requirements.txt" in
  (In ("Outdated package detected: " +:+ i) checks <->
     path_exists D p = true /\
     exists content, read_as D p "" = Decoded content /\
                     In i outdated_indicators /\ contains content i = true) /\
  (In ("Outdated package detected: " +:+ i) checks -> ~ In no_pinning_msg checks).
Proof.
  cbn zeta. unfold manual_dependency_checks.
  destruct (path_exists D (path_join base "requirements.txt")) eqn:Ep.
  2:{ split; [split; [intros []|intros [? _]; discriminate]|intros []]. }
  destruct (read_as D (path_join base "requirements.txt") "") as [content|e|e] eqn:Er.
  2,3: split; [split; [intros [Heq|[]]; cbv [String.append] in Heq; discriminate Heq
                     |intros [_ [c [Hc _]]]; discriminate]
              |intros [Heq|[]]; cbv [String.append] in Heq; discriminate Heq].
  assert (Hin : In ("Outdated package detected: " +:+ i)
                  ((if negb (contains content "==") && negb (contains content ">=")
                    then [no_pinning_msg] else []) ++
                   map (fun indicator => "Outdated package detected: " +:+ indicator)
                       (List.filter (contains content) outdated_indicators))%list <->
                In i outdated_indicators /\ contains content i = true).
  { rewrite in_app_iff, in_map_iff. split.
    - intros [Hp|[j [Hj Hf]]].
      + destruct (_ && _); [|contradiction].
        destruct Hp as [Heq|[]]. unfold no_pinning_msg in Heq.
        cbv [String.append] in Heq. discriminate Heq.
      + apply sf_app_inj in Hj. subst j. apply filter_In in Hf. exact Hf.
    - intros Hf. right. exists i. split; [reflexivity|]. apply filter_In, Hf. }
  split.
  - rewrite Hin. split.
    + intros H. split; [reflexivity|]. exists content. auto.
    + intros [_ [c [Hc H]]]. injection Hc as <-. exact H.
  - intros Ho Hp. apply Hin in Ho as [Hi Hc].
    rewrite (outdated_pinned content i Hi Hc) in Hp. simpl in Hp.
    apply in_map_iff in Hp as [j [Hj _]]. unfold no_pinning_msg in Hj.
    cbv [String.append] in Hj. discriminate Hj.
Qed.

Lemma manual_checks_outdated_witness :
  In ("Outdated package detected: " +:+ "requests==2.25")
     (manual_dependency_checks old_requests_files "/p") /\
  ~ In no_pinning_msg (manual_dependency_checks old_requests_files "/p").
Proof.
  assert (H : In ("Outdated package detected: " +:+ "requests==2.25")
                 (manual_dependency_checks old_requests_files "/p")).
  { apply (proj1 (manual_checks_outdated old_requests_files "/p" "requests==2.25")).
    split; [reflexivity|]. exists "requests==2.25.1".
    split; [reflexivity|split; [left; reflexivity|reflexivity]]. }
  split; [exact H|].
  exact (proj2 (manual_checks_outdated old_requests_files "/p" "requests==2.25") H).
Defined.

Lemma read_dependency_file_dict (D : files_view) (p : string) :
  exists d, read_dependency_file D p = PDict d /\
            forall c, get d "content" = PStr c -> String.length c <= 1000.
Proof.
  unfold read_dependency_file.
  destruct (read_as D p "utf-8") as [t|e|e].
  - eexists. split; [reflexivity|]. intros c Hc. simpl in Hc. injection Hc as <-.
    apply sf_substring_length.
  - destruct (read_as D p "utf-16") as [t|e'|e'];
      (eexists; split; [reflexivity|]); intros c Hc; simpl in Hc; try discriminate.
    injection Hc as <-. apply sf_substring_length.
  - eexists. split; [reflexivity|]. intros c Hc. discriminate.
Qed.

(** [_find_dependency_files] always returns the eight manifest names, in
    order; a name maps to [None] exactly when the file does not exist, and
    otherwise to a dict whose [content], when present, has at most 1000
    characters. *)
Theorem find_dependency_files_shape (D : files_view) (base : string) :
  map fst (find_dependency_files D base) = dependency_file_names /\
  forall name v, In (name, v) (find_dependency_files D base) ->
    (v = PNone <-> path_exists D (path_join base name) = false) /\
    (forall d c, v = PDict d -> get d "content" = PStr c -> String.length c <= 1000).
Proof.
  split; [reflexivity|].
  intros name v Hin. unfold find_dependency_files in Hin.
  apply in_map_iff in Hin as [dep [Heq _]]. injection Heq as <- <-.
  destruct (read_dependency_file_dict D (path_join base dep)) as [d [Hd Hc]].
  destruct (path_exists D (path_join base dep)).
  - rewrite Hd. split; [split; discriminate|]. intros d' c Hd'. injection Hd' as <-. apply Hc.
  - split; [split; reflexivity|]. intros d' c Hd'. discriminate.
Qed.

(** The requirements fix of [get_summary] is [generate_requirements_fix]
    of the first 1000 characters of [requirements.txt], read as UTF-8 or,
    after a decoding error, as UTF-16; it is [None] when the file is
    missing or cannot be read. An existing empty file gives the
    placeholder comment, since its entry is a non-empty dict. *)
Theorem summary_requirements_fix_spec (D : files_view) (base : string) (osv : dict) :
  summary_requirements_fix (run_audit D base osv) =
  let p := path_join base "requirements.txt" in
  if path_exists D p then
    match read_as D p "utf-8" with
    | Decoded t => Some (generate_requirements_fix (read_1000 t))
    | DecodeError _ =>
        match read_as D p "utf-16" with
        | Decoded t => Some (generate_requirements_fix (read_1000 t))
        | _ => None
        end
    | OpenError _ => None
    end
  else None.
Proof.
  unfold summary_requirements_fix, run_audit, find_dependency_files. cbn zeta.
  cbn [has_key existsb get fst snd map dependency_file_names String.eqb].
  destruct (path_exists D (path_join base "requirements.txt")); [|reflexivity].
  unfold read_dependency_file.
  destruct (read_as D (path_join base "requirements.txt") "utf-8"); [reflexivity| |reflexivity].
  destruct (read_as D (path_join base "requirements.txt") "utf-16"); reflexivity.
Qed.

End DependencyProofs.


Module ToolProofs.
Import Py ProjectManager PyDict Probes ReasonerTools LanguageProofs.

Lemma tool_pairs_spec (L t : string) (tools : list string) :
  dict_get security_tools L = Some tools -> In t tools -> In (L, t) tool_pairs.
Proof.
  intros HL Ht. unfold tool_pairs. apply in_flat_map.
  exists (L, tools). split; [|apply in_map_iff; exists t; split; [reflexivity|exact Ht]].
  revert HL. generalize security_tools as tbl. intros tbl.
  induction tbl as [|[k v] tbl IH]; simpl; [discriminate|].
  destruct (String.eqb_spec k L) as [->|_]; [intros H; injection H as ->; left; reflexivity|].
  intros H. right. apply IH, H.
Qed.

Lemma tool_pairs_get (L t : string) :
  In (L, t) tool_pairs -> exists tools, dict_get security_tools L = Some tools /\ In t tools.
Proof.
  intros H. unfold tool_pairs in H. simpl in H.
  repeat (destruct H as [H|H]; [injection H as <- <-; eexists; split; [reflexivity|simpl; tauto]|]).
  contradiction.
Qed.

Lemma scan_key_inj_table :
  Forall (fun x => Forall (fun y => scan_key (fst x) (snd x) = scan_key (fst y) (snd y) -> x = y)
                          tool_pairs) tool_pairs.
Proof. apply (bool_decide_unpack _). vm_compute. reflexivity. Qed.

Lemma pair_inj (x y : string * string) :
  In x tool_pairs -> In y tool_pairs ->
  scan_key (fst x) (snd x) = scan_key (fst y) (snd y) -> x = y.
Proof.
  intros Hx Hy Hk. pose proof scan_key_inj_table as HF.
  rewrite List.Forall_forall in HF. specialize (HF x Hx). rewrite List.Forall_forall in HF.
  exact (HF y Hy Hk).
Qed.

Lemma inner_keep (L : string) (tools : list string) r L0 t0 :
  (forall t, In t tools -> In (L, t) tool_pairs) -> In (L0, t0) tool_pairs ->
  dict_get r (scan_key L0 t0) = Some (scan_note t0) ->
  dict_get (fold_left (fun r tool => dict_set r (scan_key L tool) (scan_note tool)) tools r)
           (scan_key L0 t0) = Some (scan_note t0).
Proof.
  intros Ht H0. revert r. induction tools as [|t tools IH]; intros r Hr; [exact Hr|].
  cbn [fold_left]. apply IH; [intros t' Ht'; apply Ht; right; exact Ht'|].
  rewrite dict_get_set. destruct (String.eqb_spec (scan_key L t) (scan_key L0 t0)) as [E|_].
  - pose proof (pair_inj (L, t) (L0, t0) (Ht t (or_introl eq_refl)) H0 E) as P.
    injection P as _ ->. reflexivity.
  - exact Hr.
Qed.

Lemma inner_set (L : string) (tools : list string) r t :
  (forall t', In t' tools -> In (L, t') tool_pairs) -> In t tools ->
  dict_get (fold_left (fun r tool => dict_set r (scan_key L tool) (scan_note tool)) tools r)
           (scan_key L t) = Some (scan_note t).
Proof.
  intros Ht. revert r. induction tools as [|t1 tools IH]; intros r Hin; [contradiction|].
  cbn [fold_left]. destruct Hin as [<-|Hin].
  - apply inner_keep; [intros t' Ht'; apply Ht; right; exact Ht'|apply Ht; left; reflexivity|].
    rewrite dict_get_set, String.eqb_refl. reflexivity.
  - apply IH; [intros t' Ht'; apply Ht; right; exact Ht'|exact Hin].
Qed.

Lemma inner_sound (L : string) (tools : list string) r k v :
  dict_get (fold_left (fun r tool => dict_set r (scan_key L tool) (scan_note tool)) tools r) k
    = Some v ->
  dict_get r k = Some v \/ exists t, In t tools /\ k = scan_key L t /\ v = scan_note t.
Proof.
  revert r. induction tools as [|t tools IH]; intros r H; [left; exact H|].
  cbn [fold_left] in H. apply IH in H as [H|H].
  - rewrite dict_get_set in H. destruct (String.eqb_spec (scan_key L t) k) as [<-|].
    + right. injection H as <-. exists t. split; [left|split]; reflexivity.
    + left. exact H.
  - right. destruct H as [t' [Ht' Hk]]. exists t'. split; [right; exact Ht'|exact Hk].
Qed.

Lemma scan_language_keep r L L0 t0 :
  In (L0, t0) tool_pairs ->
  dict_get r (scan_key L0 t0) = Some (scan_note t0) ->
  dict_get (scan_language r L) (scan_key L0 t0) = Some (scan_note t0).
Proof.
  intros H0 Hr. unfold scan_language.
  destruct (dict_get security_tools L) as [tools|] eqn:E; [|exact Hr].
  apply inner_keep; [|exact H0|exact Hr]. intros t Ht. exact (tool_pairs_spec L t tools E Ht).
Qed.

Lemma scans_keep ls r L0 t0 :
  In (L0, t0) tool_pairs ->
  dict_get r (scan_key L0 t0) = Some (scan_note t0) ->
  dict_get (fold_left scan_language ls r) (scan_key L0 t0) = Some (scan_note t0).
Proof.
  intros H0. revert r. induction ls as [|L ls IH]; intros r Hr; [exact Hr|].
  cbn [fold_left]. apply IH, scan_language_keep; [exact H0|exact Hr].
Qed.

Lemma scans_sound ls r k v :
  dict_get (fold_left scan_language ls r) k = Some v ->
  dict_get r k = Some v \/
  exists L t, In L ls /\ In (L, t) tool_pairs /\ k = scan_key L t /\ v = scan_note t.
Proof.
  revert r. induction ls as [|L ls IH]; intros r H; [left; exact H|].
  cbn [fold_left] in H. apply IH in H as [H|(L' & t & HL & Hp & Hk)].
  - unfold scan_language in H.
    destruct (dict_get security_tools L) as [tools|] eqn:E; [|left; exact H].
    apply inner_sound in H as [H|(t & Ht & Hk)]; [left; exact H|].
    right. exists L, t. split; [left; reflexivity|]. split; [|exact Hk].
    exact (tool_pairs_spec L t tools E Ht).
  - right. exists L', t. split; [right; exact HL|auto].
Qed.

(** [run_language_specific_scans] maps [language_tool] to
    [Would run tool scan] for exactly the languages of its argument that
    are keys of [security_tools] and their tools; other languages give
    nothing. Of the languages [detect_languages] can report, only Python,
    JavaScript, Java, C#, PHP, Ruby and Go are keys: C and C++ files get
    no tool, since the table's key is [C/C++]. *)
Theorem language_scans_spec (ls : list string) :
  (forall k v, dict_get (run_language_specific_scans ls) k = Some v <->
     exists L t, In L ls /\ In (L, t) tool_pairs /\ k = scan_key L t /\ v = scan_note t) /\
  List.filter (fun L => bool_decide (is_Some (dict_get security_tools L)))
              (map snd language_extensions)
  = ["Python"; "JavaScript"; "Java"; "C#"; "PHP"; "Ruby"; "Go"].
Proof.
  split; [|reflexivity].
  intros k v. unfold run_language_specific_scans. split.
  - intros H. apply scans_sound in H as [H|H]; [discriminate|exact H].
  - intros (L & t & HL & Hp & -> & ->).
    apply in_split in HL as (pre & post & ->). rewrite fold_left_app. cbn [fold_left].
    apply scans_keep; [exact Hp|].
    destruct (tool_pairs_get L t Hp) as (tools & E & Ht).
    unfold scan_language. rewrite E. apply inner_set; [|exact Ht].
    intros t' Ht'. exact (tool_pairs_spec L t' tools E Ht').
Qed.

(** The block of [analyze] that runs the language-specific scans looks for
    a [languages_detected] key, which [run_scan] never produces (its key is
    [languages]): the language-specific results are always empty. *)
Theorem language_specific_results_empty (p : probes) :
  language_specific_results (run_scan p) = [].
Proof.
  unfold language_specific_results, run_scan. destruct (semgrep_results p) as [[b s] a].
  reflexivity.
Qed.

End ToolProofs.

Module StripFacts.
Import Py FS Reasoner ProjectManager StringFacts ReportProofs.

Lemma st_contains_cons (c d : ascii) (s : string) :
  contains (String d s) (str1 c) = Ascii.eqb c d || contains s (str1 c).
Proof. unfold str1. cbn [contains startswith]. rewrite andb_true_r. reflexivity. Qed.

Lemma st_rev_contains (c : ascii) (s acc : string) :
  contains (rev_str s acc) (str1 c) = contains s (str1 c) || contains acc (str1 c).
Proof.
  revert acc. induction s as [|d s IH]; intros acc; cbn [rev_str]; [reflexivity|].
  rewrite IH, !st_contains_cons.
  destruct (Ascii.eqb c d), (contains s (str1 c)), (contains acc (str1 c)); reflexivity.
Qed.

Lemma st_lstrip_contains (c : ascii) (s : string) :
  contains s (str1 c) = false -> contains (lstrip s) (str1 c) = false.
Proof.
  induction s as [|d s IH]; [reflexivity|]. cbn [lstrip]. rewrite st_contains_cons.
  intros H. apply orb_false_iff in H as [H1 H2].
  destruct (is_space d); [exact (IH H2)|]. rewrite st_contains_cons, H1, H2. reflexivity.
Qed.

Lemma st_strip_contains (c : ascii) (s : string) :
  contains s (str1 c) = false -> contains (strip s) (str1 c) = false.
Proof.
  intros H. unfold strip, rstrip. rewrite st_rev_contains.
  rewrite st_lstrip_contains; [reflexivity|]. rewrite st_rev_contains.
  rewrite (st_lstrip_contains c s H). reflexivity.
Qed.

Lemma st_rev_rev (s acc t : string) : rev_str (rev_str s acc) t = rev_str acc (s +:+ t).
Proof.
  revert acc t. induction s as [|c s IH]; intros acc t; cbn [rev_str]; [reflexivity|].
  rewrite IH. reflexivity.
Qed.

Lemma st_rev_invol (s : string) : rev_str (rev_str s "") "" = s.
Proof. rewrite st_rev_rev. cbn [rev_str]. apply sf_app_nil_r. Qed.

Lemma st_rev_acc (s acc : string) : rev_str s acc = rev_str s "" +:+ acc.
Proof.
  revert acc. induction s as [|c s IH]; intros acc; cbn [rev_str]; [reflexivity|].
  rewrite (IH (String c acc)), (IH (String c "")), <- sf_app_assoc. reflexivity.
Qed.

Lemma st_rev_app (a b acc : string) : rev_str (a +:+ b) acc = rev_str b (rev_str a acc).
Proof.
  revert acc. induction a as [|c a IH]; intros acc; [reflexivity|].
  rewrite sf_app_cons. cbn [rev_str]. apply IH.
Qed.

Lemma st_rstrip_idem (s : string) : rstrip (rstrip s) = rstrip s.
Proof. unfold rstrip. rewrite st_rev_invol, lstrip_idem. reflexivity. Qed.

Lemma st_rstrip_head (c : ascii) (u : string) :
  is_space c = false -> exists u', rstrip (String c u) = String c u'.
Proof.
  intros Hc. unfold rstrip. cbn [rev_str]. rewrite (st_rev_acc u (String c "")), (lstrip_app _ "" c Hc).
  rewrite st_rev_app. cbn [rev_str].
  eexists. reflexivity.
Qed.

Lemma st_lstrip_head (s t : string) (c : ascii) :
  lstrip s = String c t -> is_space c = false.
Proof.
  induction s as [|d s IH]; cbn [lstrip]; [discriminate|].
  destruct (is_space d) eqn:E; [exact IH|]. intros H. injection H as <- _. exact E.
Qed.

Lemma st_lstrip_strip (s : string) : lstrip (strip s) = strip s.
Proof.
  unfold strip. destruct (lstrip s) as [|c t] eqn:E; [reflexivity|].
  destruct (st_rstrip_head c t (st_lstrip_head s t c E)) as [u' Hu]. rewrite Hu.
  cbn [lstrip]. rewrite (st_lstrip_head s t c E). reflexivity.
Qed.

Lemma st_strip_strip (s : string) : strip (strip s) = strip s.
Proof.
  unfold strip at 1. rewrite st_lstrip_strip. unfold strip. apply st_rstrip_idem.
Qed.

Lemma st_strip_head (s t : string) (c : ascii) :
  lstrip s = String c t -> exists u, strip s = String c u.
Proof. intros H. unfold strip. rewrite H. exact (st_rstrip_head c t (st_lstrip_head s t c H)). Qed.

Lemma st_lstrip_prefix (r t s : string) (c : ascii) :
  lstrip r = String c t -> lstrip (r +:+ s) = String c (t +:+ s).
Proof.
  induction r as [|d r IH]; cbn [lstrip]; [discriminate|]. rewrite sf_app_cons. cbn [lstrip].
  destruct (is_space d); [exact IH|]. intros H. injection H as -> ->. reflexivity.
Qed.

Lemma st_letter_facts (c : ascii) :
  is_letter c = true ->
  is_space c = false /\ Ascii.eqb c "+"%char = false /\ Ascii.eqb c "-"%char = false /\
  is_digit c = false.
Proof.
  destruct c as [[] [] [] [] [] [] [] []]; vm_compute; intros H;
    first [discriminate H | repeat split].
Qed.

Lemma st_py_int_letter (s t : string) (c : ascii) :
  is_letter c = true -> lstrip s = String c t -> py_int (strip s) = None.
Proof.
  intros Hc Hs. destruct (st_letter_facts c Hc) as (Hsp & Hp & Hm & Hd).
  destruct (st_strip_head s t c Hs) as [u Hu].
  unfold py_int. rewrite st_strip_strip, Hu, Hp, Hm. cbn [unsigned_int]. rewrite Hd. reflexivity.
Qed.

Lemma st_split_no_sep_all (c : ascii) (s : string) :
  Forall (fun x => contains x (str1 c) = false) (split_on c s).
Proof.
  induction s as [|d s IH]; cbn [split_on].
  - apply List.Forall_cons; [reflexivity|apply List.Forall_nil].
  - destruct (Ascii.eqb d c) eqn:E.
    + apply List.Forall_cons; [reflexivity|exact IH].
    + remember (split_on c s) as l eqn:El. destruct l as [|f fs].
      * apply List.Forall_cons; [|apply List.Forall_nil].
        change (str1 d) with (String d ""). rewrite st_contains_cons, Ascii.eqb_sym, E.
        reflexivity.
      * apply List.Forall_cons; [|exact (List.Forall_inv_tail IH)].
        rewrite st_contains_cons, Ascii.eqb_sym, E. exact (List.Forall_inv IH).
Qed.

Lemma st_join_app_sep (c : ascii) (x : string) (l : list string) :
  l <> [] -> join (str1 c) (x :: l) = x +:+ String c (join (str1 c) l).
Proof. destruct l; [contradiction|reflexivity]. Qed.

Lemma st_split_join (c : ascii) (D : list string) :
  D <> [] -> Forall (fun x => contains x (str1 c) = false) D ->
  split_on c (join (str1 c) D) = D.
Proof.
  induction D as [|x D IH]; intros Hne HF; [contradiction|].
  destruct D as [|y D'].
  - cbn [join]. apply sf_split_no_sep. exact (List.Forall_inv HF).
  - rewrite st_join_app_sep by discriminate. rewrite sf_split_app_sep.
    rewrite sf_split_no_sep by exact (List.Forall_inv HF).
    rewrite IH; [reflexivity|discriminate|exact (List.Forall_inv_tail HF)].
Qed.

End StripFacts.

Module ScanQuestionProofs.
Import Py FS Reasoner Fixtures Augment StringFacts StripFacts.

(** The text [analyze] returns for a scanned project starts with
    [QUESTION:] exactly when the [QUESTIONS:] section of the assessor's
    answer, stripped, is present and is not [null]: the report then comes
    after the question. Otherwise the text starts with a newline. *)
Theorem assessment_question_iff (svc : services) (ctx : string) :
  startswith (assessment_response svc ctx) "QUESTION:" =
  negb (String.eqb (questions (extract_report (assess svc ctx))) "null") /\
  (String.eqb (questions (extract_report (assess svc ctx))) "null" = true ->
   startswith (assessment_response svc ctx) nl = true).
Proof.
  unfold assessment_response. cbv zeta.
  destruct (String.eqb (questions (extract_report (assess svc ctx))) "null"); cbn [negb].
  - split; [|intros _];
      destruct (if negb (String.eqb (recommendations (extract_report (assess svc ctx)))
                          "No recommendations")
                then generate_fix_code svc (recommendations (extract_report (assess svc ctx)))
                else None) as [f|]; [destruct (String.eqb f "")| |destruct (String.eqb f "")|];
      reflexivity.
  - split; [reflexivity|intros H; discriminate H].
Qed.

Lemma assessment_question_iff_witness :
  String.eqb (questions (extract_report (assess fixed_services "context"))) "null" = true /\
  startswith (assessment_response fixed_services "context") nl = true.
Proof.
  assert (H : String.eqb (questions (extract_report (assess fixed_services "context"))) "null"
              = true) by (vm_compute; reflexivity).
  split; [exact H|exact (proj2 (assessment_question_iff fixed_services "context") H)].
Defined.

Lemma selection_rejects (F : fs) (svc : services) (st : state) (r t : string) (c : ascii) :
  waiting_for_path_selection st = true -> lstrip r = String c t -> is_letter c = true ->
  isdir F r = false -> analyze F svc st r = (invalid_path_msg, st).
Proof.
  intros Hw Hr Hc Hd. unfold analyze. rewrite Hw. unfold handle_path_selection.
  rewrite (st_py_int_letter r t c Hc Hr), Hd. reflexivity.
Qed.

(** While [analyze] waits for the choice among ambiguous directories,
    [send_to_reasoner] never gets past the question: it sends the whole
    request with the answers appended, not the answer, so a request that
    starts with a letter is never read as a number; unless one of the
    growing requests names a directory, every round returns the
    [QUESTION:] of an invalid selection with the state unchanged, and the
    loop ends with no response once the answers run out. *)
Theorem send_to_reasoner_selection_loop (F : fs) (svc : services) (st : state)
  (r : string) (answers : list string) (c : ascii) (t : string) :
  waiting_for_path_selection st = true -> lstrip r = String c t -> is_letter c = true ->
  Forall (fun q => isdir F q = false) (requests r answers) ->
  Forall (fun q => analyze F svc st q = (invalid_path_msg, st)) (requests r answers) /\
  send_to_reasoner F svc st r answers = (None, st).
Proof.
  revert r t. induction answers as [|a rest IH]; intros r t Hw Hr Hc Hd;
    cbn [requests] in Hd |- *; cbn [send_to_reasoner];
    rewrite (selection_rejects F svc st r t c Hw Hr Hc (List.Forall_inv Hd)).
  - split; [|reflexivity]. apply List.Forall_cons; [|apply List.Forall_nil].
    exact (selection_rejects F svc st r t c Hw Hr Hc (List.Forall_inv Hd)).
  - change (startswith invalid_path_msg "QUESTION:") with true. cbv iota.
    destruct (IH (r +:+ " " +:+ a) (t +:+ " " +:+ a) Hw) as [IH1 IH2];
      [apply st_lstrip_prefix, Hr|exact Hc|exact (List.Forall_inv_tail Hd)|].
    split; [|exact IH2]. apply List.Forall_cons; [|exact IH1].
    exact (selection_rejects F svc st r t c Hw Hr Hc (List.Forall_inv Hd)).
Qed.

Lemma send_to_reasoner_selection_loop_witness :
  waiting_for_path_selection (snd (analyze home_fs fixed_services init "scan demo x")) = true /\
  Forall (fun q => analyze home_fs fixed_services
                      (snd (analyze home_fs fixed_services init "scan demo x")) q =
                    (invalid_path_msg, snd (analyze home_fs fixed_services init "scan demo x")))
    (requests "scan demo x" ["2"]) /\
  send_to_reasoner home_fs fixed_services
    (snd (analyze home_fs fixed_services init "scan demo x")) "scan demo x" ["2"]
  = (None, snd (analyze home_fs fixed_services init "scan demo x")).
Proof.
  split; [vm_compute; reflexivity|].
  apply (send_to_reasoner_selection_loop _ _ _ _ _ "s"%char "can demo x").
  - vm_compute. reflexivity.
  - reflexivity.
  - reflexivity.
  - apply List.Forall_cons; [vm_compute; reflexivity|].
    apply List.Forall_cons; [vm_compute; reflexivity|]. apply List.Forall_nil.
Defined.

End ScanQuestionProofs.

Module DedupIdemProofs.
Import Py Reasoner StringFacts StripFacts.

Lemma dedup_sub (l : list string) (seen : gset string) (x : string) :
  In x (dedup_lines l seen) -> In x l.
Proof.
  revert seen. induction l as [|y l IH]; intros seen; cbn [dedup_lines]; [tauto|].
  destruct (negb (String.eqb (strip y) "") && bool_decide (strip y ∉ seen)).
  - intros [->|H]; [left; reflexivity|right; exact (IH _ H)].
  - intros H. right. exact (IH _ H).
Qed.

Lemma dedup_props (l : list string) (seen : gset string) :
  Forall (fun x => strip x <> "" /\ strip x ∉ seen) (dedup_lines l seen) /\
  NoDup (map strip (dedup_lines l seen)).
Proof.
  revert seen. induction l as [|y l IH]; intros seen; cbn [dedup_lines].
  - split; constructor.
  - destruct (negb (String.eqb (strip y) "") && bool_decide (strip y ∉ seen)) eqn:E;
      [|exact (IH seen)].
    apply andb_prop in E as [E1 E2]. apply negb_true_iff, String.eqb_neq in E1.
    apply bool_decide_eq_true in E2.
    destruct (IH ({[strip y]} ∪ seen)) as [HF HN]. split.
    + apply List.Forall_cons; [split; assumption|].
      refine (List.Forall_impl _ _ HF). intros x [Hx1 Hx2]. split; [exact Hx1|set_solver].
    + cbn [map]. apply NoDup_cons_2; [|exact HN].
      intros Hin. apply list_elem_of_In, in_map_iff in Hin as (x & Hx & Hin).
      rewrite List.Forall_forall in HF. destruct (HF x Hin) as [_ Hx2].
      rewrite Hx in Hx2. set_solver.
Qed.

Lemma dedup_fixed (l : list string) (seen : gset string) :
  Forall (fun x => strip x <> "" /\ strip x ∉ seen) l -> NoDup (map strip l) ->
  dedup_lines l seen = l.
Proof.
  revert seen. induction l as [|y l IH]; intros seen HF HN; [reflexivity|].
  cbn [dedup_lines]. destruct (List.Forall_inv HF) as [H1 H2].
  rewrite (proj2 (String.eqb_neq _ _) H1), (bool_decide_eq_true_2 _ H2). cbn [negb andb].
  cbn [map] in HN. apply NoDup_cons in HN as [Hy HN]. f_equal. apply IH; [|exact HN].
  pose proof (List.Forall_inv_tail HF) as HT. rewrite List.Forall_forall in HT |- *.
  intros x Hx. destruct (HT x Hx) as [Hx1 Hx2]. split; [exact Hx1|].
  assert (strip x <> strip y) as Hne.
  { intros E. apply Hy. rewrite <- E. apply list_elem_of_In, in_map_iff. exists x. auto. }
  set_solver.
Qed.

(** [deduplicate_recommendations] is idempotent: its output lines are
    those of the input whose stripped text is non-empty and new, so a
    second pass keeps every line. *)
Theorem deduplicate_recommendations_idem (text : string) :
  deduplicate_recommendations (deduplicate_recommendations text) =
  deduplicate_recommendations text.
Proof.
  destruct (String.eqb_spec text "") as [->|Hne]; [reflexivity|].
  set (D := dedup_lines (split_on (chr 10) text) ∅).
  assert (E1 : deduplicate_recommendations text = join nl D).
  { unfold deduplicate_recommendations. rewrite (proj2 (String.eqb_neq _ _) Hne). reflexivity. }
  rewrite E1. unfold deduplicate_recommendations.
  destruct (String.eqb (join nl D) "") eqn:Ej; [reflexivity|].
  f_equal. destruct (dedup_props (split_on (chr 10) text) ∅) as [HF HN].
  unfold nl. rewrite st_split_join.
  - apply dedup_fixed; [exact HF|exact HN].
  - intros E. unfold nl in Ej. rewrite E in Ej. discriminate.
  - apply List.Forall_forall. intros x Hx. apply dedup_sub in Hx.
    pose proof (st_split_no_sep_all (chr 10) text) as HS. rewrite List.Forall_forall in HS.
    exact (HS x Hx).
Qed.

End DedupIdemProofs.

Module FormatProofs.
Import Py Reasoner ReasonerTools StringFacts.

Lemma join_app_sep (s : string) (l1 l2 : list string) :
  l1 <> [] -> l2 <> [] -> join s (l1 ++ l2)%list = join s l1 +:+ s +:+ join s l2.
Proof.
  intros H1 H2. induction l1 as [|x l1 IH]; [contradiction|].
  destruct l1 as [|y l1].
  - cbn [app]. destruct l2; [contradiction|reflexivity].
  - change ((x :: y :: l1) ++ l2)%list with (x :: ((y :: l1) ++ l2))%list.
    assert (E : forall l, l <> [] -> join s (x :: l) = x +:+ s +:+ join s l)
      by (intros [|? ?] Hl; [contradiction|reflexivity]).
    rewrite (E ((y :: l1) ++ l2)%list) by discriminate.
    rewrite (E (y :: l1)) by discriminate.
    rewrite IH by discriminate. rewrite <- !sf_app_assoc. reflexivity.
Qed.

(** [format_security_report] treats [No recommendations] as an empty
    recommendation and a missing fix as an empty one; whatever the
    arguments, the text opens with the header and the assessment section
    and closes with the next steps, the optional sections between them. *)
Theorem format_security_report_shape (a r recs : string) (fc : option string) :
  format_security_report a r "No recommendations" fc = format_security_report a r "" fc /\
  format_security_report a r recs None = format_security_report a r recs (Some "") /\
  exists mid,
    format_security_report a r recs fc =
    join nl (report_header r ++ [clipboard_emoji +:+ " ASSESSMENT:"; repeat_str 30 "-"; a; ""])%list
    +:+ nl +:+ mid +:+ join nl next_steps.
Proof.
  split; [reflexivity|]. split; [reflexivity|].
  unfold format_security_report. cbv zeta.
  set (H := (report_header r ++ [clipboard_emoji +:+ " ASSESSMENT:"; repeat_str 30 "-"; a; ""])%list).
  set (R := [bulb_emoji +:+ " RECOMMENDATIONS:"; repeat_str 30 "-"; recs; ""]).
  set (X := [zap_emoji +:+ " AUTOMATED FIXES:"; repeat_str 30 "-";
             "The following code can implement these recommendations:"; "";
             default "" fc; ""]).
  assert (HH : H <> []) by (unfold H, report_header; discriminate).
  assert (HN : next_steps <> []) by (unfold next_steps; discriminate).
  destruct (negb (String.eqb recs "") && negb (String.eqb recs "No recommendations"));
    destruct (Reasoner.truthy fc).
  - exists (join nl R +:+ nl +:+ join nl X +:+ nl).
    rewrite !join_app_sep by (try exact HN; try exact HH; unfold R, X; try discriminate;
                              intros E; apply app_eq_nil in E as [E _]; exact (HH E)).
    rewrite <- !sf_app_assoc. reflexivity.
  - exists (join nl R +:+ nl).
    rewrite !join_app_sep by (try exact HN; try exact HH; unfold R; try discriminate;
                              intros E; apply app_eq_nil in E as [E _]; exact (HH E)).
    rewrite <- !sf_app_assoc. reflexivity.
  - exists (join nl X +:+ nl).
    rewrite !join_app_sep by (try exact HN; try exact HH; unfold X; try discriminate).
    rewrite <- !sf_app_assoc. reflexivity.
  - exists "". rewrite join_app_sep by (first [exact HN | exact HH]). reflexivity.
Qed.

End FormatProofs.

Module RequirementsFixProofs.
Import Py ProjectManager StringFacts StripFacts.

Lemma fix_line_table :
  Forall (fun pv => fix_line (fst pv +:+ snd pv) = fst pv +:+ snd pv /\
                    contains (fst pv +:+ snd pv) (str1 (chr 10)) = false) version_updates.
Proof.
  repeat (apply List.Forall_cons; [split; vm_compute; reflexivity|]). apply List.Forall_nil.
Qed.

Lemma fix_line_cases (l : string) :
  fix_line l = strip l \/ exists pv, In pv version_updates /\ fix_line l = fst pv +:+ snd pv.
Proof.
  unfold fix_line. cbv zeta.
  destruct (String.eqb (strip l) "" || startswith (strip l) "#"); [left; reflexivity|].
  destruct (List.find _ version_updates) as [[pkg nv]|] eqn:F; [|left; reflexivity].
  right. exists (pkg, nv). split; [exact (proj1 (find_some _ _ F))|reflexivity].
Qed.

Lemma fix_line_idem (l : string) : fix_line (fix_line l) = fix_line l.
Proof.
  remember (fix_line l) as y eqn:Ey. unfold fix_line in Ey. cbv zeta in Ey.
  destruct (String.eqb (strip l) "" || startswith (strip l) "#") eqn:E.
  - subst y. unfold fix_line. cbv zeta. rewrite st_strip_strip, E. reflexivity.
  - destruct (List.find _ version_updates) as [[pkg nv]|] eqn:F.
    + subst y. pose proof fix_line_table as HT. rewrite List.Forall_forall in HT.
      exact (proj1 (HT (pkg, nv) (proj1 (find_some _ _ F)))).
    + subst y. unfold fix_line. cbv zeta. rewrite st_strip_strip, E, F. reflexivity.
Qed.

Lemma fix_line_no_nl (l : string) :
  contains l (str1 (chr 10)) = false -> contains (fix_line l) (str1 (chr 10)) = false.
Proof.
  intros H. destruct (fix_line_cases l) as [->|(pv & Hin & ->)].
  - exact (st_strip_contains _ _ H).
  - pose proof fix_line_table as HT. rewrite List.Forall_forall in HT.
    exact (proj2 (HT pv Hin)).
Qed.

(** [generate_requirements_fix] is idempotent unless its output is empty:
    the fixed lines are stripped, pinned upgrades stay as they are and no
    line gains a newline. An empty output (a single blank line of input)
    is fixed again into the message for missing content. *)
Theorem generate_requirements_fix_idem (c : string) :
  (generate_requirements_fix c <> "" ->
   generate_requirements_fix (generate_requirements_fix c) = generate_requirements_fix c) /\
  (generate_requirements_fix c = "" ->
   generate_requirements_fix (generate_requirements_fix c) =
   "# No requirements.txt content available for fixing").
Proof.
  split; intros Hne.
  - destruct (String.eqb_spec c "") as [->|Hc]; [reflexivity|].
    assert (E1 : generate_requirements_fix c = join nl (map fix_line (split_on (chr 10) c))).
    { unfold generate_requirements_fix. rewrite (proj2 (String.eqb_neq _ _) Hc). reflexivity. }
    rewrite E1 in Hne |- *. unfold generate_requirements_fix at 1.
    rewrite (proj2 (String.eqb_neq _ _) Hne). f_equal. unfold nl. rewrite st_split_join.
    + rewrite map_map. apply map_ext. exact fix_line_idem.
    + intros E. apply map_eq_nil in E. exact (sf_split_nonempty _ _ E).
    + apply List.Forall_map. refine (List.Forall_impl _ _ (st_split_no_sep_all (chr 10) c)).
      exact fix_line_no_nl.
  - rewrite Hne. reflexivity.
Qed.

Lemma generate_requirements_fix_idem_witness :
  generate_requirements_fix ("flask==1.0" +:+ nl +:+ "requests==2.0") <> "" /\
  generate_requirements_fix (generate_requirements_fix ("flask==1.0" +:+ nl +:+ "requests==2.0"))
  = generate_requirements_fix ("flask==1.0" +:+ nl +:+ "requests==2.0") /\
  generate_requirements_fix " " = "" /\
  generate_requirements_fix (generate_requirements_fix " ") =
  "# No requirements.txt content available for fixing".
Proof.
  assert (H1 : generate_requirements_fix ("flask==1.0" +:+ nl +:+ "requests==2.0") <> "")
    by (vm_compute; discriminate).
  assert (H2 : generate_requirements_fix " " = "") by (vm_compute; reflexivity).
  split; [exact H1|]. split; [exact (proj1 (generate_requirements_fix_idem _) H1)|].
  split; [exact H2|exact (proj2 (generate_requirements_fix_idem _) H2)].
Defined.

End RequirementsFixProofs.

Module FileContentsProofs.
Import Py FS ProjectManager PyDict Probes LanguageProofs FrameworkProofs.

Lemma dict_set_fresh {A} (d : list (string * A)) (k : string) (v : A) :
  dict_get d k = None -> dict_set d k v = (d ++ [(k, v)])%list.
Proof.
  induction d as [|[k' v'] d IH]; cbn [dict_get dict_set app]; [reflexivity|].
  destruct (String.eqb k' k); [discriminate|]. intros H. rewrite (IH H). reflexivity.
Qed.

Lemma contents_fold (D : files_view) (base : string) (fs : list string) (acc : dict) :
  NoDup fs -> (forall f, In f fs -> dict_get acc f = None) ->
  fold_left
    (fun code_content file =>
       let file_path := path_join base file in
       if path_exists D file_path
       then dict_set code_content file (PStr (read_file_content D file file_path))
       else code_content) fs acc =
  (acc ++ map (fun f => (f, PStr (read_file_content D f (path_join base f))))
              (List.filter (fun f => path_exists D (path_join base f)) fs))%list.
Proof.
  revert acc. induction fs as [|f fs IH]; intros acc Hnd Hfresh; cbn [fold_left List.filter].
  - rewrite app_nil_r. reflexivity.
  - apply NoDup_cons in Hnd as [Hf Hnd]. cbv zeta.
    destruct (path_exists D (path_join base f)).
    + rewrite IH; [|exact Hnd|].
      * rewrite dict_set_fresh by (apply Hfresh; left; reflexivity).
        rewrite <- app_assoc. reflexivity.
      * intros f' Hf'. rewrite dict_get_set.
        destruct (String.eqb_spec f f') as [->|_]; [|apply Hfresh; right; exact Hf'].
        exfalso. apply Hf. apply list_elem_of_In. exact Hf'.
    + apply IH; [exact Hnd|]. intros f' Hf'. apply Hfresh. right. exact Hf'.
Qed.

Lemma detect_map_in (g : string -> string) (L : list string) (fw : string) :
  fw ∈ detect_frameworks (map (fun f => (f, PStr (g f))) L) <->
  exists f, In f L /\ fw ∈ frameworks_in ∅ (g f).
Proof.
  induction L as [|f L IH].
  - split; [intros H; cbn in H; set_solver|intros (f & [] & _)].
  - assert (E : detect_frameworks (map (fun f => (f, PStr (g f))) (f :: L)) =
                detect_frameworks (map (fun f => (f, PStr (g f))) L) ∪ frameworks_in ∅ (g f)).
    { unfold detect_frameworks at 1. cbn [map fold_left snd].
      apply detect_fold_union. }
    rewrite E, elem_of_union, IH. split.
    + intros [(f' & Hf' & H)|H]; [exists f'; split; [right|]; assumption|].
      exists f. split; [left; reflexivity|exact H].
    + intros (f' & [<-|Hf'] & H); [right; exact H|left; exists f'; split; assumption].
Qed.

(** [analyze_file_contents] keeps exactly the important files that
    exist, in the order of its list, each with its whole text; the
    frameworks [run_scan] then detects are those whose indicators occur in
    the text of one of these files (error texts of unreadable files
    included). *)
Theorem analyze_file_contents_frameworks (D : files_view) (base : string) :
  map fst (analyze_file_contents D base) =
    List.filter (fun f => path_exists D (path_join base f)) important_files /\
  (forall f v, In (f, v) (analyze_file_contents D base) <->
     In f important_files /\ path_exists D (path_join base f) = true /\
     v = PStr (read_file_content D f (path_join base f))) /\
  (forall fw, fw ∈ detect_frameworks (analyze_file_contents D base) <->
     exists f, In f important_files /\ path_exists D (path_join base f) = true /\
               fw ∈ frameworks_in ∅ (read_file_content D f (path_join base f))).
Proof.
  assert (E : analyze_file_contents D base =
    map (fun f => (f, PStr (read_file_content D f (path_join base f))))
        (List.filter (fun f => path_exists D (path_join base f)) important_files)).
  { unfold analyze_file_contents. rewrite contents_fold; [reflexivity| |intros f _; reflexivity].
    apply (bool_decide_unpack _). vm_compute. reflexivity. }
  rewrite E. split; [|split].
  - rewrite map_map. cbn [fst]. apply map_id.
  - intros f v. rewrite in_map_iff. split.
    + intros (f' & Hf' & Hin). injection Hf' as -> <-.
      apply filter_In in Hin as [Hin Hp]. auto.
    + intros (Hin & Hp & ->). exists f. split; [reflexivity|]. apply filter_In. auto.
  - intros fw. rewrite detect_map_in. split.
    + intros (f & Hin & H). apply filter_In in Hin as [Hin Hp]. eauto.
    + intros (f & Hin & Hp & H). exists f. split; [apply filter_In; auto|exact H].
Qed.

End FileContentsProofs.
